(** * NEARContractEditor: the compile/deploy orchestration of the editor component

    A shallow embedding of [src/frontend/src/components/NEARContractEditor.tsx].

    - The component's [useState] cells form the record [State]; a setter
      [setX v] is a store update.
    - A handler is a computation in the monad [M]: it reads the closure it
      was created in (the store at invocation), updates the store, and logs
      every externally visible effect ([alert], HTTP requests, wallet calls)
      together with the store at the instant of the effect.
    - An [async] handler is cut at each [await]: the part before it returns
      the pending request, the part after it ([..._settled]) takes the way
      the awaited promise settled and runs [try]/[catch]/[finally] from there.
    - JavaScript strings are modelled by [string], one [ascii] per code unit,
      which covers the code units U+0000..U+00FF. *)

From Stdlib Require Import String Ascii List Bool Arith NArith Lia.
From Stdlib Require Import DecimalString DecimalN.
Import ListNotations.
Local Open Scope string_scope.

(* ================================================================== *)
(** ** JavaScript strings *)
(* ================================================================== *)

Module Js.

(** [WhiteSpace] and [LineTerminator] of ECMAScript, as far as they lie in
    U+0000..U+00FF: TAB, LF, VT, FF, CR, SP, NBSP.  [String.prototype.trim]
    and the regular expression class [\s] use the same set. *)
Definition isWhiteSpace (c : ascii) : bool :=
  let n := N_of_ascii c in
  ((9 <=? n) && (n <=? 13) || (n =? 32) || (n =? 160))%N.

(** [String.prototype.trimStart]. *)
Fixpoint trimStart (s : string) : string :=
  match s with
  | EmptyString => EmptyString
  | String c r => if isWhiteSpace c then trimStart r else s
  end.

(** [String.prototype.trimEnd]. *)
Fixpoint trimEnd (s : string) : string :=
  match s with
  | EmptyString => EmptyString
  | String c r =>
      match trimEnd r with
      | EmptyString => if isWhiteSpace c then EmptyString else String c EmptyString
      | r' => String c r'
      end
  end.

(** [String.prototype.trim]. *)
Definition trim (s : string) : string := trimEnd (trimStart s).

(** [ToBoolean] on a string, negated: [!s] holds exactly for the empty
    string. *)
Definition not_ (s : string) : bool :=
  match s with
  | EmptyString => true
  | String _ _ => false
  end.

(** The Unicode simple lower-case mapping on U+0000..U+00FF: A..Z and
    the Latin-1 capitals U+00C0..U+00DE (without the multiplication sign
    U+00D7) move up by 32. *)
Definition lowerChar (c : ascii) : ascii :=
  let n := N_of_ascii c in
  if ((65 <=? n) && (n <=? 90)
      || (192 <=? n) && (n <=? 222) && negb (n =? 215))%N
  then ascii_of_N (n + 32)
  else c.

(** [String.prototype.toLowerCase] on U+0000..U+00FF, where it maps each code
    unit to one code unit; beyond U+00FF it may also change the length. *)
Fixpoint toLowerCase (s : string) : string :=
  match s with
  | EmptyString => EmptyString
  | String c r => String (lowerChar c) (toLowerCase r)
  end.

(** [s.replace(/\s+/g, '_')], scanning left to right: [inRun] tells that
    the characters just before belong to a match of [\s+] that has
    already produced its underscore. *)
Fixpoint replaceRuns (inRun : bool) (s : string) : string :=
  match s with
  | EmptyString => EmptyString
  | String c r =>
      if isWhiteSpace c
      then (if inRun then replaceRuns true r
            else String "_" (replaceRuns true r))
      else String c (replaceRuns false r)
  end.

Definition replaceWhitespaceRuns (s : string) : string := replaceRuns false s.

(** All characters of [s] satisfy [p]. *)
Fixpoint allChars (p : ascii -> bool) (s : string) : bool :=
  match s with
  | EmptyString => true
  | String c r => p c && allChars p r
  end.

(** Template-literal conversion of a non-negative integer below 1e21
    (such as [Date.now()]): its decimal digits. *)
Definition numberToString (n : N) : string :=
  NilEmpty.string_of_uint (N.to_uint n).

(** An [Error] object as thrown by axios and near-api-js. *)
Record Error := mkError { errName : string; message : string }.

(** [Error.prototype.toString], used by [`${error}`]. *)
Definition errorToString (e : Error) : string :=
  match errName e, message e with
  | EmptyString, m => m
  | n, EmptyString => n
  | n, m => n ++ ": " ++ m
  end.

(** [a || b] on strings. *)
Definition or_ (a b : string) : string :=
  match a with
  | EmptyString => b
  | String _ _ => a
  end.

(** How an awaited promise settles. *)
Inductive Settled (A : Type) : Type :=
| Fulfilled (value : A)
| Rejected (error : Error).
Arguments Fulfilled {A} value.
Arguments Rejected {A} error.

End Js.

(* ================================================================== *)
(** ** Data model: the interfaces and the component state *)
(* ================================================================== *)

(** [interface CompileResponse]. *)
Module CompileResponse.
Record t := mk {
  success : bool;
  output : string;
  errors : option string;
  wasm_size : option N
}.
End CompileResponse.

(** [interface ContractTemplate]. *)
Module ContractTemplate.
Record t := mk {
  name : string;
  description : string;
  code : string
}.
End ContractTemplate.

(** [interface WalletConnection]. *)
Module WalletConnection.
Record t := mk {
  accountId : string;
  isSignedIn : bool
}.
(** [{ accountId: '', isSignedIn: false }], the initial and the
    signed-out value. *)
Definition signedOut : t := mk EmptyString false.
End WalletConnection.

(** [interface DeployResponse]. *)
Module DeployResponse.
Record t := mk {
  success : bool;
  transactionHash : option string;
  contractId : option string;
  error : option string
}.
End DeployResponse.

(** The object [{ near, wallet: walletConnection }] held in
    [nearConnection]; the component only tests it for presence and calls
    through it. *)
Inductive NearHandle : Type := nearHandle.

(** What [initializeNear] learns from the restored wallet session:
    [walletConnection.isSignedIn()] and [walletConnection.getAccountId()]. *)
Record WalletSession := mkWalletSession {
  sessionSignedIn : bool;
  sessionAccountId : string
}.

(** The value [account.deployContract] resolves to; the component reads
    [result.transaction.hash]. *)
Record FinalExecutionOutcome := mkOutcome { transaction_hash : string }.

Definition API_BASE_URL : string := "http://localhost:8080".

(** The [useState] cells of the component. *)
Record State := mkState {
  code : string;
  contractName : string;
  compiling : bool;
  deploying : bool;
  compileResult : option CompileResponse.t;
  deployResult : option DeployResponse.t;
  templates : list ContractTemplate.t;
  selectedTemplate : string;
  loading : bool;
  wallet : WalletConnection.t;
  nearConnection : option NearHandle
}.

Definition setCode (v : string) (s : State) : State :=
  mkState v (contractName s) (compiling s) (deploying s) (compileResult s)
    (deployResult s) (templates s) (selectedTemplate s) (loading s) (wallet s)
    (nearConnection s).
Definition setContractName (v : string) (s : State) : State :=
  mkState (code s) v (compiling s) (deploying s) (compileResult s)
    (deployResult s) (templates s) (selectedTemplate s) (loading s) (wallet s)
    (nearConnection s).
Definition setCompiling (v : bool) (s : State) : State :=
  mkState (code s) (contractName s) v (deploying s) (compileResult s)
    (deployResult s) (templates s) (selectedTemplate s) (loading s) (wallet s)
    (nearConnection s).
Definition setDeploying (v : bool) (s : State) : State :=
  mkState (code s) (contractName s) (compiling s) v (compileResult s)
    (deployResult s) (templates s) (selectedTemplate s) (loading s) (wallet s)
    (nearConnection s).
Definition setCompileResult (v : option CompileResponse.t) (s : State) : State :=
  mkState (code s) (contractName s) (compiling s) (deploying s) v
    (deployResult s) (templates s) (selectedTemplate s) (loading s) (wallet s)
    (nearConnection s).
Definition setDeployResult (v : option DeployResponse.t) (s : State) : State :=
  mkState (code s) (contractName s) (compiling s) (deploying s) (compileResult s)
    v (templates s) (selectedTemplate s) (loading s) (wallet s)
    (nearConnection s).
Definition setTemplates (v : list ContractTemplate.t) (s : State) : State :=
  mkState (code s) (contractName s) (compiling s) (deploying s) (compileResult s)
    (deployResult s) v (selectedTemplate s) (loading s) (wallet s)
    (nearConnection s).
Definition setSelectedTemplate (v : string) (s : State) : State :=
  mkState (code s) (contractName s) (compiling s) (deploying s) (compileResult s)
    (deployResult s) (templates s) v (loading s) (wallet s)
    (nearConnection s).
Definition setLoading (v : bool) (s : State) : State :=
  mkState (code s) (contractName s) (compiling s) (deploying s) (compileResult s)
    (deployResult s) (templates s) (selectedTemplate s) v (wallet s)
    (nearConnection s).
Definition setWallet (v : WalletConnection.t) (s : State) : State :=
  mkState (code s) (contractName s) (compiling s) (deploying s) (compileResult s)
    (deployResult s) (templates s) (selectedTemplate s) (loading s) v
    (nearConnection s).
Definition setNearConnection (v : option NearHandle) (s : State) : State :=
  mkState (code s) (contractName s) (compiling s) (deploying s) (compileResult s)
    (deployResult s) (templates s) (selectedTemplate s) (loading s) (wallet s)
    v.

(** [compileResult?.success], as a condition. *)
Definition compileSucceeded (s : State) : bool :=
  match compileResult s with
  | Some r => CompileResponse.success r
  | None => false
  end.

(* ================================================================== *)
(** ** Effects and the handler monad *)
(* ================================================================== *)

(** What a handler does to the outside world. *)
Inductive Effect : Type :=
| Alert (msg : string)
| ConsoleError (label : string) (e : Js.Error)
| AxiosGet (url : string)
| AxiosGetArrayBuffer (url : string)
| AxiosPost (url : string) (body_code body_contract_name : string)
| NearConnect
| RequestSignIn
| SignOut
| DeployContract (wasmCode : list Byte.byte)
| WindowOpen (url : string).

(** Requests that leave the page: the build service, the NEAR RPC and the
    wallet. *)
Definition isNetwork (e : Effect) : bool :=
  match e with
  | Alert _ | ConsoleError _ _ => false
  | _ => true
  end.

(** Each effect is logged with the store as it is when the effect happens. *)
Definition Log : Type := list (Effect * State).

Definition effects (l : Log) : list Effect := map fst l.

Definition M (A : Type) : Type := State -> A * State * Log.

Definition ret {A} (a : A) : M A := fun s => (a, s, []).

Definition bind {A B} (m : M A) (k : A -> M B) : M B :=
  fun s =>
    let '(a, s1, l1) := m s in
    let '(b, s2, l2) := k a s1 in
    (b, s2, (l1 ++ l2)%list).

Definition get : M State := fun s => (s, s, []).

Definition update (f : State -> State) : M unit := fun s => (tt, f s, []).

Definition emit (e : Effect) : M unit := fun s => (tt, s, [(e, s)]).

Declare Scope handler_scope.
Delimit Scope handler_scope with handler.
Notation "x <- m ;; k" := (bind m (fun x => k))
  (at level 61, m at next level, right associativity) : handler_scope.
Notation "m ;; k" := (bind m (fun _ => k))
  (at level 61, right associativity) : handler_scope.
Local Open Scope handler_scope.

(** The three components of a run. *)
Definition resultOf {A} (r : A * State * Log) : A := fst (fst r).
Definition storeOf {A} (r : A * State * Log) : State := snd (fst r).
Definition logOf {A} (r : A * State * Log) : Log := snd r.

(* ================================================================== *)
(** ** The handlers *)
(* ================================================================== *)

(** An [await] the component is suspended on.  The continuation of
    [deployContract] keeps what it reads after the [await]: the closure of
    the render it was invoked in, then the identifier it has derived. *)
Inductive Pending : Type :=
| PendTemplates
| PendNearInit
| PendCompile
| PendWasm (closure : State)
| PendDeploy (contractId : string).

Definition dquote : string := String (ascii_of_nat 34) EmptyString.

(** [defaultCode]. *)
Definition defaultCode : string :=
"use near_sdk::borsh::{BorshDeserialize, BorshSerialize};
use near_sdk::{env, near_bindgen, AccountId};

#[near_bindgen]
#[derive(Default, BorshDeserialize, BorshSerialize)]
pub struct Contract {
    greeting: String,
}

#[near_bindgen]
impl Contract {
    pub fn get_greeting(&self) -> String {
        self.greeting.clone()
    }

    pub fn set_greeting(&mut self, message: String) {
        env::log_str(&format!(" ++ dquote ++ "Saving greeting: {}" ++ dquote ++ ", message));
        self.greeting = message;
    }

    pub fn say_hello(&self, account: AccountId) -> String {
        format!(" ++ dquote ++ "{}, {}!" ++ dquote ++ ", self.greeting, account)
    }
}".

(** The [useState] initial values. *)
Definition initialState : State :=
  mkState EmptyString "hello_near" false false None None [] EmptyString true
    WalletConnection.signedOut None.

(** [fetchTemplates], up to [await axios.get]. *)
Definition fetchTemplates : M (list Pending) :=
  emit (AxiosGet (API_BASE_URL ++ "/templates")) ;;
  ret [PendTemplates].

(** [fetchTemplates] from the [await] on: [try] / [catch] / [finally]. *)
Definition fetchTemplates_settled
    (response : Js.Settled (list ContractTemplate.t)) : M (list Pending) :=
  match response with
  | Js.Fulfilled data => update (setTemplates data)
  | Js.Rejected error => emit (ConsoleError "Failed to fetch templates:" error)
  end ;;
  update (setLoading false) ;;
  ret [].

(** [initializeNear], up to [await connect(config)]. *)
Definition initializeNear : M (list Pending) :=
  emit NearConnect ;;
  ret [PendNearInit].

(** [initializeNear] from the [await] on.  A rejection stands for any
    exception inside the [try] block. *)
Definition initializeNear_settled
    (near : Js.Settled WalletSession) : M (list Pending) :=
  match near with
  | Js.Fulfilled walletConnection =>
      update (setNearConnection (Some nearHandle)) ;;
      if sessionSignedIn walletConnection
      then update (setWallet
                     (WalletConnection.mk (sessionAccountId walletConnection) true))
      else ret tt
  | Js.Rejected error => emit (ConsoleError "Failed to initialize NEAR:" error)
  end ;;
  ret [].

(** The [useEffect] that runs once after the first render. *)
Definition onMount : M (list Pending) :=
  update (setCode defaultCode) ;;
  p1 <- fetchTemplates ;;
  p2 <- initializeNear ;;
  ret (p1 ++ p2)%list.

(** [connectWallet]. *)
Definition connectWallet : M (list Pending) :=
  cl <- get ;;
  match nearConnection cl with
  | Some _ => emit RequestSignIn
  | None => ret tt
  end ;;
  ret [].

(** [disconnectWallet]. *)
Definition disconnectWallet : M (list Pending) :=
  cl <- get ;;
  match nearConnection cl with
  | Some _ =>
      emit SignOut ;;
      update (setWallet (WalletConnection.mk EmptyString false)) ;;
      update (setDeployResult None)
  | None => ret tt
  end ;;
  ret [].

(** [compileContract], up to [await axios.post]. *)
Definition compileContract : M (list Pending) :=
  cl <- get ;;
  if Js.not_ (Js.trim (code cl)) || Js.not_ (Js.trim (contractName cl))
  then
    emit (Alert "Please provide both contract name and code") ;;
    ret []
  else
    update (setCompiling true) ;;
    update (setCompileResult None) ;;
    update (setDeployResult None) ;;
    emit (AxiosPost (API_BASE_URL ++ "/compile") (code cl) (contractName cl)) ;;
    ret [PendCompile].

(** [compileContract] from the [await] on: [try] / [catch] / [finally]. *)
Definition compileContract_settled
    (response : Js.Settled CompileResponse.t) : M (list Pending) :=
  match response with
  | Js.Fulfilled data => update (setCompileResult (Some data))
  | Js.Rejected error =>
      update (setCompileResult
                (Some (CompileResponse.mk false EmptyString
                         (Some ("Network error: " ++ Js.errorToString error))
                         None)))
  end ;;
  update (setCompiling false) ;;
  ret [].

(** The [catch] block of [deployContract]. *)
Definition deployContract_catch (error : Js.Error) : M unit :=
  emit (ConsoleError "Deployment failed:" error) ;;
  update (setDeployResult
            (Some (DeployResponse.mk false None None
                     (Some (Js.or_ (Js.message error) "Deployment failed"))))).

(** The [finally] block of [deployContract]. *)
Definition deployContract_finally : M unit :=
  update (setDeploying false).

(** [deployContract], up to [await axios.get]. *)
Definition deployContract : M (list Pending) :=
  cl <- get ;;
  if negb (compileSucceeded cl)
  then
    emit (Alert "Please compile the contract successfully first") ;;
    ret []
  else if negb (WalletConnection.isSignedIn (wallet cl))
  then
    emit (Alert "Please connect your wallet first") ;;
    ret []
  else
    update (setDeploying true) ;;
    update (setDeployResult None) ;;
    emit (AxiosGetArrayBuffer
            (API_BASE_URL ++ "/download-wasm/" ++ contractName cl)) ;;
    ret [PendWasm cl].

(** The [TypeError] of reading [.wallet] from [null] (the text is the
    engine's; V8's is used here). *)
Definition nullWalletError : Js.Error :=
  Js.mkError "TypeError" "Cannot read properties of null (reading 'wallet')".

(** [`${contractName}_${timestamp}.${wallet.accountId}`]. *)
Definition deploymentId (contractName : string) (timestamp : N)
    (accountId : string) : string :=
  contractName ++ "_" ++ Js.numberToString timestamp ++ "." ++ accountId.

(** [deployContract] between its two [await]s: [cl] is the closure of the
    invocation, [now] the value [Date.now()] returns. *)
Definition deployContract_fetched (cl : State)
    (wasmResponse : Js.Settled (list Byte.byte)) (now : N) : M (list Pending) :=
  match wasmResponse with
  | Js.Rejected error =>
      deployContract_catch error ;; deployContract_finally ;; ret []
  | Js.Fulfilled wasmCode =>
      match nearConnection cl with
      | None =>
          deployContract_catch nullWalletError ;; deployContract_finally ;; ret []
      | Some _ =>
          let timestamp := now in
          let contractId :=
            deploymentId (contractName cl) timestamp
              (WalletConnection.accountId (wallet cl)) in
          emit (DeployContract wasmCode) ;;
          ret [PendDeploy contractId]
      end
  end.

(** [deployContract] from [await account.deployContract] on. *)
Definition deployContract_submitted (contractId : string)
    (result : Js.Settled FinalExecutionOutcome) : M (list Pending) :=
  match result with
  | Js.Rejected error =>
      deployContract_catch error ;; deployContract_finally ;; ret []
  | Js.Fulfilled res =>
      update (setDeployResult
                (Some (DeployResponse.mk true (Some (transaction_hash res))
                         (Some contractId) None))) ;;
      deployContract_finally ;;
      ret []
  end.

(** [loadTemplate]. *)
Definition loadTemplate (templateName : string) : M (list Pending) :=
  cl <- get ;;
  match find (fun t => ContractTemplate.name t =? templateName) (templates cl) with
  | Some template =>
      update (setCode (ContractTemplate.code template)) ;;
      update (setContractName
                (Js.replaceWhitespaceRuns (Js.toLowerCase templateName))) ;;
      update (setCompileResult None) ;;
      update (setDeployResult None)
  | None => ret tt
  end ;;
  update (setSelectedTemplate templateName) ;;
  ret [].

(** [downloadWasm]. *)
Definition downloadWasm : M (list Pending) :=
  cl <- get ;;
  (if compileSucceeded cl
   then emit (WindowOpen (API_BASE_URL ++ "/download-wasm/" ++ contractName cl))
   else ret tt) ;;
  ret [].

(* ================================================================== *)
(** ** The session as a transition system *)
(* ================================================================== *)

(** What the user can do on the rendered page. *)
Inductive Action : Type :=
| EditorChange (value : option string)
| NameInput (value : string)
| TemplateSelect (value : string)
| ClickCompile
| ClickDownload
| ClickDeploy
| ClickConnect
| ClickDisconnect.

(** The [onChange] / [onClick] attribute of each control. *)
Definition handler (a : Action) : M (list Pending) :=
  match a with
  | EditorChange value =>
      update (setCode match value with
                      | Some v => Js.or_ v EmptyString
                      | None => EmptyString
                      end) ;;
      ret []
  | NameInput value => update (setContractName value) ;; ret []
  | TemplateSelect value => loadTemplate value
  | ClickCompile => compileContract
  | ClickDownload => downloadWasm
  | ClickDeploy => deployContract
  | ClickConnect => connectWallet
  | ClickDisconnect => disconnectWallet
  end.

(** Whether the control is on the page and enabled: nothing but the
    spinner is rendered while [loading]; the Compile button has
    [disabled={compiling}]; the Download and Deploy buttons are rendered
    under [compileResult?.success], Deploy with
    [disabled={deploying || !wallet.isSignedIn}]; Connect and Disconnect
    are the two branches of [wallet.isSignedIn]. *)
Definition enabled (a : Action) (s : State) : bool :=
  negb (loading s) &&
  match a with
  | EditorChange _ | NameInput _ | TemplateSelect _ => true
  | ClickCompile => negb (compiling s)
  | ClickDownload => compileSucceeded s
  | ClickDeploy =>
      compileSucceeded s
      && negb (deploying s || negb (WalletConnection.isSignedIn (wallet s)))
  | ClickConnect => negb (WalletConnection.isSignedIn (wallet s))
  | ClickDisconnect => WalletConnection.isSignedIn (wallet s)
  end.

(** A user event on the page: the handler runs only if its control is
    enabled. *)
Definition dispatch (a : Action) : M (list Pending) :=
  cl <- get ;;
  if enabled a cl then handler a else ret [].

(** What an awaited promise hands back to its continuation. *)
Definition Reply (p : Pending) : Type :=
  match p with
  | PendTemplates => Js.Settled (list ContractTemplate.t)
  | PendNearInit => Js.Settled WalletSession
  | PendCompile => Js.Settled CompileResponse.t
  | PendWasm _ => (Js.Settled (list Byte.byte) * N)%type
  | PendDeploy _ => Js.Settled FinalExecutionOutcome
  end.

(** The continuation of each [await]. *)
Definition resume (p : Pending) : Reply p -> M (list Pending) :=
  match p with
  | PendTemplates => fetchTemplates_settled
  | PendNearInit => initializeNear_settled
  | PendCompile => compileContract_settled
  | PendWasm cl => fun r => deployContract_fetched cl (fst r) (snd r)
  | PendDeploy contractId => deployContract_submitted contractId
  end.

(** The store together with the [await]s in flight. *)
Record World := mkWorld {
  store : State;
  pending : list Pending
}.

(** The page after the first render and its mount effect. *)
Definition initialWorld : World :=
  let r := onMount initialState in
  mkWorld (storeOf r) (resultOf r).

(** One turn of the event loop.  With [ui = true] user events go through
    the rendered controls ([dispatch]); with [ui = false] any handler may be
    invoked at any time. *)
Inductive step (ui : bool) : World -> Log -> World -> Prop :=
| step_user (a : Action) (w : World) :
    let r := (if ui then dispatch a else handler a) (store w) in
    step ui w (logOf r) (mkWorld (storeOf r) (pending w ++ resultOf r))
| step_settle (p : Pending) (reply : Reply p) (w : World)
      (before after : list Pending) :
    pending w = (before ++ p :: after)%list ->
    let r := resume p reply (store w) in
    step ui w (logOf r) (mkWorld (storeOf r) (before ++ after ++ resultOf r)).

Inductive reachable (ui : bool) : World -> Prop :=
| reach_init : reachable ui initialWorld
| reach_step w l w' : reachable ui w -> step ui w l w' -> reachable ui w'.

(** A compile cycle run without anything in between: the handler, then its
    continuation on [response]. *)
Definition compileCycle (response : Js.Settled CompileResponse.t) : M (list Pending) :=
  ps <- compileContract ;;
  match ps with
  | [] => ret []
  | _ => compileContract_settled response
  end.

(** What the outside world answers during one deploy cycle. *)
Record DeployEnv := mkDeployEnv {
  wasmResponse : Js.Settled (list Byte.byte);
  dateNow : N;
  deployOutcome : Js.Settled FinalExecutionOutcome
}.

(** A deploy cycle run without anything in between. *)
Definition deployCycle (env : DeployEnv) : M (list Pending) :=
  ps <- deployContract ;;
  match ps with
  | [PendWasm cl] =>
      ps' <- deployContract_fetched cl (wasmResponse env) (dateNow env) ;;
      match ps' with
      | [PendDeploy contractId] =>
          deployContract_submitted contractId (deployOutcome env)
      | _ => ret []
      end
  | _ => ret []
  end.

(* ================================================================== *)
(** ** Facts about the string operations *)
(* ================================================================== *)

(* ================================================================== *)
(** ** Conditions and invariants *)
(* ================================================================== *)

(** The inputs pass the check at the head of [compileContract]. *)
Definition compileInputsOk (s : State) : bool :=
  negb (Js.not_ (Js.trim (code s)) || Js.not_ (Js.trim (contractName s))).

(** The two checks at the head of [deployContract] pass. *)
Definition deployReady (s : State) : bool :=
  compileSucceeded s && WalletConnection.isSignedIn (wallet s).


Definition isDeployPending (p : Pending) : bool :=
  match p with
  | PendWasm _ | PendDeploy _ => true
  | _ => false
  end.

Definition noDeployPending (l : list Pending) : bool :=
  forallb (fun p => negb (isDeployPending p)) l.

(** The number of [await axios.post('/compile')] in flight. *)
Fixpoint compilesInFlight (l : list Pending) : nat :=
  match l with
  | [] => 0
  | PendCompile :: t => S (compilesInFlight t)
  | _ :: t => compilesInFlight t
  end.

(** As long as [initializeNear] has not stored a connection, the wallet is
    signed out, no deploy result is held and no deploy is in flight. *)
Definition connectionInv (w : World) : Prop :=
  nearConnection (store w) = None ->
  wallet (store w) = WalletConnection.signedOut
  /\ deployResult (store w) = None
  /\ noDeployPending (pending w) = true.

(** On the page, [compiling] tells whether a compile request is in flight,
    there is at most one, and no compile result is held meanwhile. *)
Definition compileInv (w : World) : Prop :=
  compilesInFlight (pending w) = (if compiling (store w) then 1 else 0)
  /\ (compiling (store w) = true -> compileResult (store w) = None).



(** A [DeployResponse] of the failure shape: no transaction, no
    identifier, and a message that is not empty. *)
Definition deployFailure (d : DeployResponse.t) : Prop :=
  DeployResponse.success d = false
  /\ DeployResponse.transactionHash d = None
  /\ DeployResponse.contractId d = None
  /\ exists m, DeployResponse.error d = Some m /\ m <> EmptyString.

(** The identifier a deploy cycle started in store [s] derives. *)
Definition cycleContractId (s : State) (env : DeployEnv) : string :=
  deploymentId (contractName s) (dateNow env)
    (WalletConnection.accountId (wallet s)).

(* ================================================================== *)
(** ** A sample session *)
(* ================================================================== *)

(** The world after a user event on the page. *)
Definition afterUser (a : Action) (w : World) : World :=
  let r := dispatch a (store w) in
  mkWorld (storeOf r) (pending w ++ resultOf r).

(** The world after the pending [p], standing between [before] and
    [after], has settled with [reply]. *)
Definition afterSettle (before : list Pending) (p : Pending) (reply : Reply p)
    (after : list Pending) (w : World) : World :=
  let r := resume p reply (store w) in
  mkWorld (storeOf r) (before ++ after ++ resultOf r).

Definition sampleTemplates : list ContractTemplate.t :=
  [ ContractTemplate.mk "Hello World" "A greeting contract" "// hello";
    ContractTemplate.mk "Fungible  Token" "A token contract" "// token" ].

Definition networkError : Js.Error := Js.mkError "AxiosError" "Network Error".

(** The page is up, with two templates listed. *)
Definition world1 : World :=
  afterSettle [] PendTemplates (Js.Fulfilled sampleTemplates) [PendNearInit]
    initialWorld.

(** The wallet session of [alice.testnet] is restored. *)
Definition world2 : World :=
  afterSettle [] PendNearInit
    (Js.Fulfilled (mkWalletSession true "alice.testnet")) [] world1.

(** Compile is clicked ... *)
Definition world3 : World := afterUser ClickCompile world2.

(** ... and the build service reports success. *)
Definition world4 : World :=
  afterSettle [] PendCompile
    (Js.Fulfilled (CompileResponse.mk true "Finished" None (Some 1024%N))) []
    world3.

(** Deploy is clicked. *)
Definition world5 : World := afterUser ClickDeploy world4.

(** The download of the artifact fails. *)
Definition deployFailedWorld : World :=
  afterSettle [] (PendWasm (store world4)) (Js.Rejected networkError, 0%N) []
    world5.

(** Otherwise: while the deploy is in flight, Compile is clicked again ... *)
Definition world6 : World := afterUser ClickCompile world5.

(** ... and then the download of the artifact fails. *)
Definition staleDeployWorld : World :=
  afterSettle [] (PendWasm (store world4)) (Js.Rejected networkError, 0%N)
    [PendCompile] world6.

(** The outside world of a deploy cycle in which every step succeeds. *)
Definition sampleEnv : DeployEnv :=
  mkDeployEnv (Js.Fulfilled []) 1730000000000%N
    (Js.Fulfilled (mkOutcome "9xTxHash")).

(** The store of [world4] with a contract name of white space only. *)
Definition blankNameState : State :=
  setContractName (String (ascii_of_nat 9) "  ") (store world4).

(** A store with a compile in flight. *)
Definition compilingState : State := store world3.

(* ================================================================== *)
(** ** Running the handlers *)
(* ================================================================== *)

(** Unfolds a handler down to stores and logs. *)
Ltac run :=
  cbv [compileContract compileContract_settled compileCycle
       deployContract deployContract_fetched deployContract_submitted
       deployContract_catch deployContract_finally deployCycle
       loadTemplate downloadWasm connectWallet disconnectWallet
       fetchTemplates fetchTemplates_settled initializeNear
       initializeNear_settled handler dispatch resume
       bind ret get update emit resultOf storeOf logOf effects];
  cbn.

(* ================================================================== *)
(** ** Further invariants of the session *)
(* ================================================================== *)

Definition isTemplatesPending (p : Pending) : bool :=
  match p with
  | PendTemplates => true
  | _ => false
  end.

Definition isNearInitPending (p : Pending) : bool :=
  match p with
  | PendNearInit => true
  | _ => false
  end.

(** The number of pending [await]s of one kind. *)
Definition countPending (kind : Pending -> bool) (l : list Pending) : nat :=
  length (filter kind l).

(** The number of [await axios.get('/templates')] in flight. *)
Definition templatesInFlight (l : list Pending) : nat :=
  countPending isTemplatesPending l.

(** The number of [await connect(config)] in flight. *)
Definition nearInitsInFlight (l : list Pending) : nat :=
  countPending isNearInitPending l.

(** The number of deploy cycles in flight, at either of their [await]s. *)
Definition deploysInFlight (l : list Pending) : nat :=
  countPending isDeployPending l.

(** [loading] tells whether the catalogue request is in flight, and the
    catalogue is empty until it has settled. *)
Definition loadingInv (w : World) : Prop :=
  templatesInFlight (pending w) = (if loading (store w) then 1 else 0)
  /\ (loading (store w) = true -> templates (store w) = []).

(** [connect(config)] is awaited at most once, and not any more once a
    connection is stored. *)
Definition initInv (w : World) : Prop :=
  nearInitsInFlight (pending w) <= 1
  /\ (nearConnection (store w) <> None -> nearInitsInFlight (pending w) = 0).

(** A raised in-flight flag goes with a cleared result. *)
Definition flagsInv (w : World) : Prop :=
  (compiling (store w) = true -> compileResult (store w) = None)
  /\ (deploying (store w) = true -> deployResult (store w) = None).

(** On the page, [deploying] tells whether a deploy cycle is in flight. *)
Definition deployInv (w : World) : Prop :=
  deploysInFlight (pending w) = (if deploying (store w) then 1 else 0).

(** Every deploy cycle waiting for its artifact was started in a store
    that passed the two checks and held a wallet connection. *)
Definition closureInv (w : World) : Prop :=
  forall cl : State,
    In (PendWasm cl) (pending w) ->
    deployReady cl = true /\ nearConnection cl <> None.

(* ================================================================== *)
(** ** What the page shows *)
(* ================================================================== *)

(** [x && (...)] on an optional string: the block is rendered for a string
    that is present and not empty. *)
Definition whenTruthy (x : option string) : option string :=
  match x with
  | Some (String c r) => Some (String c r)
  | _ => None
  end.

(** The details under [deployResult.success && deployResult.transactionHash]:
    the text of the contract identifier, the [href] of the transaction link
    and its label. *)
Record DeployDetails := mkDeployDetails {
  contractIdText : string;
  transactionHref : string;
  transactionLabel : string
}.

(** The deployment status block. *)
Record DeployStatus := mkDeployStatus {
  deployStatusText : string;
  deployDetails : option DeployDetails;
  deployErrorText : option string
}.

(** The block under [{deployResult && (...)}]. *)
Definition deployStatus (s : State) : option DeployStatus :=
  match deployResult s with
  | None => None
  | Some d =>
      Some (mkDeployStatus
              (if DeployResponse.success d
               then "Deployment Successful!" else "Deployment Failed")
              (if DeployResponse.success d
               then match whenTruthy (DeployResponse.transactionHash d) with
                    | Some hash =>
                        Some (mkDeployDetails
                                match DeployResponse.contractId d with
                                | Some c => c
                                | None => EmptyString
                                end
                                ("https://testnet.nearblocks.io/txns/" ++ hash)
                                (substring 0 20 hash ++ "..."))
                    | None => None
                    end
               else None)
              (whenTruthy (DeployResponse.error d)))
  end.

(** The output panel without its WASM size line: the status, the build
    output, and the two blocks that show [compileResult.errors]. *)
Record CompileOutput := mkCompileOutput {
  compileStatusText : string;
  buildOutputText : option string;
  errorsText : option string;
  warningsText : option string
}.

(** The panel under [{!compileResult ? (placeholder) : (...)}]; [None] is
    the placeholder. *)
Definition compileOutput (s : State) : option CompileOutput :=
  match compileResult s with
  | None => None
  | Some r =>
      Some (mkCompileOutput
              (if CompileResponse.success r
               then "Compilation Successful" else "Compilation Failed")
              (whenTruthy (Some (CompileResponse.output r)))
              (if negb (CompileResponse.success r)
               then whenTruthy (CompileResponse.errors r) else None)
              (if CompileResponse.success r
               then whenTruthy (CompileResponse.errors r) else None))
  end.

(** The block under [{selectedTemplate && (...)}]: the name, and
    [templates.find(t => t.name === selectedTemplate)?.description]. *)
Definition templateDescription (s : State) : option (string * option string) :=
  match selectedTemplate s with
  | EmptyString => None
  | String c r =>
      Some (selectedTemplate s,
            option_map ContractTemplate.description
              (find (fun t => ContractTemplate.name t =? selectedTemplate s)
                 (templates s)))
  end.

(** The page is up, but [connect(config)] has failed. *)
Definition initFailedWorld : World :=
  afterSettle [] PendNearInit (Js.Rejected networkError) [] world1.





(* ================================================================== *)
(** ** Sample runs of the string operations *)
(* ================================================================== *)

Example trim_ex :
  Js.trim (String (ascii_of_nat 9) "  ab c  ") = "ab c".
Proof. reflexivity. Qed.

Example lower_replace_ex :
  Js.replaceWhitespaceRuns (Js.toLowerCase "Fungible   Token  V2 ") = "fungible_token_v2_".
Proof. reflexivity. Qed.

Example numberToString_ex : Js.numberToString 1730000000000 = "1730000000000".
Proof. reflexivity. Qed.


Section StringFacts.

Lemma trimStart_blank (s : string) :
  Js.trimStart s = EmptyString <-> Js.allChars Js.isWhiteSpace s = true.
Proof.
  induction s as [|c r IH]; simpl.
  - tauto.
  - destruct (Js.isWhiteSpace c); simpl.
    + exact IH.
    + split; discriminate.
Qed.

Lemma trimEnd_blank (s : string) :
  Js.trimEnd s = EmptyString <-> Js.allChars Js.isWhiteSpace s = true.
Proof.
  induction s as [|c r IH]; simpl.
  - tauto.
  - destruct (Js.trimEnd r) as [|c' r'] eqn:E.
    + destruct (Js.isWhiteSpace c); simpl.
      * split; intros _; [apply IH|]; reflexivity.
      * split; discriminate.
    + split; [discriminate|].
      intros H. apply andb_true_iff in H. destruct H as [_ H].
      apply IH in H. discriminate.
Qed.

Lemma trimStart_head (s : string) (c : ascii) (r : string) :
  Js.trimStart s = String c r -> Js.isWhiteSpace c = false.
Proof.
  induction s as [|d t IH]; simpl; [discriminate|].
  destruct (Js.isWhiteSpace d) eqn:E; [exact IH|].
  intros H. injection H as -> _. exact E.
Qed.

(** The trimmed string is empty exactly when the string holds nothing
    but white space. *)
Lemma trim_blank (s : string) :
  Js.trim s = EmptyString <-> Js.allChars Js.isWhiteSpace s = true.
Proof.
  unfold Js.trim. rewrite trimEnd_blank.
  destruct (Js.trimStart s) as [|c r] eqn:E.
  - simpl. split; intros _; [apply trimStart_blank; exact E | reflexivity].
  - pose proof (trimStart_head s c r E) as Hc.
    simpl. rewrite Hc. simpl. split; [discriminate|].
    intros H. apply trimStart_blank in H. congruence.
Qed.

Lemma not_trim_blank (s : string) :
  Js.not_ (Js.trim s) = true <-> Js.trim s = EmptyString.
Proof.
  destruct (Js.trim s); simpl; split; intros H; try reflexivity; discriminate.
Qed.

(** After the replacement no white space is left. *)
Lemma replaceRuns_no_whitespace (b : bool) (s : string) :
  Js.allChars (fun c => negb (Js.isWhiteSpace c)) (Js.replaceRuns b s) = true.
Proof.
  revert b. induction s as [|c r IH]; intros b; simpl; [reflexivity|].
  destruct (Js.isWhiteSpace c) eqn:E.
  - destruct b; simpl; rewrite ?IH; reflexivity.
  - simpl. rewrite E, IH. reflexivity.
Qed.

(** A string without white space is left as it is. *)
Lemma replaceRuns_id (s : string) :
  Js.allChars (fun c => negb (Js.isWhiteSpace c)) s = true ->
  Js.replaceRuns false s = s.
Proof.
  induction s as [|c r IH]; simpl; [reflexivity|].
  intros H. apply andb_true_iff in H. destruct H as [Hc Hr].
  apply negb_true_iff in Hc. rewrite Hc, (IH Hr). reflexivity.
Qed.

Lemma replaceRuns_skip (w rest : string) :
  Js.allChars Js.isWhiteSpace w = true ->
  Js.replaceRuns true (w ++ rest) = Js.replaceRuns true rest.
Proof.
  induction w as [|c r IH]; simpl; [reflexivity|].
  intros H. apply andb_true_iff in H. destruct H as [Hc Hr].
  rewrite Hc. exact (IH Hr).
Qed.

(** A maximal run of white space, wherever it stands, becomes a single
    underscore: [a] has no white space, [w] is a non-empty run of white
    space, and [rest] does not go on with white space. *)
Lemma replaceRuns_run (a w rest : string) (c : ascii) :
  Js.allChars (fun c => negb (Js.isWhiteSpace c)) a = true ->
  Js.allChars Js.isWhiteSpace (String c w) = true ->
  Js.trimStart rest = rest ->
  Js.replaceWhitespaceRuns (a ++ String c w ++ rest)
  = a ++ "_" ++ Js.replaceWhitespaceRuns rest.
Proof.
  unfold Js.replaceWhitespaceRuns.
  intros Ha Hw Hrest. induction a as [|d t IH]; simpl.
  - simpl in Hw. apply andb_true_iff in Hw. destruct Hw as [Hc Hw].
    rewrite Hc. f_equal. rewrite (replaceRuns_skip _ _ Hw).
    destruct rest as [|e rest']; simpl; [reflexivity|].
    simpl in Hrest.
    destruct (Js.isWhiteSpace e) eqn:E; [|reflexivity].
    exfalso.
    assert (Hlen : forall u, String.length (Js.trimStart u) <= String.length u).
    { induction u as [|x u IHu]; simpl; [lia|].
      destruct (Js.isWhiteSpace x); simpl; lia. }
    specialize (Hlen rest'). rewrite Hrest in Hlen. simpl in Hlen. lia.
  - simpl in Ha. apply andb_true_iff in Ha. destruct Ha as [Hd Ht].
    apply negb_true_iff in Hd. rewrite Hd. f_equal. exact (IH Ht).
Qed.






Lemma or_nonempty (a b : string) : b <> EmptyString -> Js.or_ a b <> EmptyString.
Proof. destruct a; simpl; [tauto | discriminate]. Qed.

End StringFacts.



Lemma compileContract_blank (s : State) :
  compileInputsOk s = false ->
  compileContract s
  = ([], s, [(Alert "Please provide both contract name and code", s)]).
Proof.
  unfold compileInputsOk. intros H. apply negb_false_iff in H.
  run. rewrite H. reflexivity.
Qed.

Lemma compileContract_ok (s : State) :
  compileInputsOk s = true ->
  let s' := setDeployResult None (setCompileResult None (setCompiling true s)) in
  compileContract s
  = ([PendCompile], s',
     [(AxiosPost (API_BASE_URL ++ "/compile") (code s) (contractName s), s')]).
Proof.
  unfold compileInputsOk. intros H. apply negb_true_iff in H.
  run. rewrite H. reflexivity.
Qed.

Lemma deployContract_not_ready (s : State) :
  deployReady s = false ->
  exists msg, deployContract s = ([], s, [(Alert msg, s)]).
Proof.
  unfold deployReady. intros H. run.
  destruct (compileSucceeded s); simpl in *.
  - rewrite H. simpl. eexists. reflexivity.
  - eexists. reflexivity.
Qed.

Lemma deployContract_ready (s : State) :
  deployReady s = true ->
  let s' := setDeployResult None (setDeploying true s) in
  deployContract s
  = ([PendWasm s], s',
     [(AxiosGetArrayBuffer (API_BASE_URL ++ "/download-wasm/" ++ contractName s),
       s')]).
Proof.
  unfold deployReady. intros H. apply andb_true_iff in H. destruct H as [H1 H2].
  run. rewrite H1, H2. reflexivity.
Qed.

(** [loadTemplate] when [find] comes back with a template. *)
Lemma loadTemplate_found (n : string) (t : ContractTemplate.t) (s : State) :
  find (fun t => ContractTemplate.name t =? n) (templates s) = Some t ->
  loadTemplate n s
  = ([],
     setSelectedTemplate n
       (setDeployResult None
          (setCompileResult None
             (setContractName (Js.replaceWhitespaceRuns (Js.toLowerCase n))
                (setCode (ContractTemplate.code t) s)))),
     []).
Proof. intros H. run. rewrite H. reflexivity. Qed.

(** [loadTemplate] when [find] comes back with [undefined]. *)
Lemma loadTemplate_missing (n : string) (s : State) :
  find (fun t => ContractTemplate.name t =? n) (templates s) = None ->
  loadTemplate n s = ([], setSelectedTemplate n s, []).
Proof. intros H. run. rewrite H. reflexivity. Qed.

(** With unique names, [find] by the name of a listed template returns
    that template. *)
Lemma find_unique_name (l : list ContractTemplate.t) (t : ContractTemplate.t) :
  NoDup (map ContractTemplate.name l) ->
  In t l ->
  find (fun u => ContractTemplate.name u =? ContractTemplate.name t) l = Some t.
Proof.
  induction l as [|u l IH]; simpl; [tauto|].
  intros Hnd Hin. inversion Hnd as [|? ? Hnotin Hnd']; subst.
  destruct Hin as [->|Hin].
  - rewrite String.eqb_refl. reflexivity.
  - destruct (String.eqb_spec (ContractTemplate.name u) (ContractTemplate.name t))
      as [E|E].
    + exfalso. apply Hnotin. rewrite E. apply in_map. exact Hin.
    + exact (IH Hnd' Hin).
Qed.

Lemma find_no_name (l : list ContractTemplate.t) (n : string) :
  (forall t, In t l -> ContractTemplate.name t <> n) ->
  find (fun u => ContractTemplate.name u =? n) l = None.
Proof.
  induction l as [|u l IH]; simpl; [reflexivity|].
  intros H.
  destruct (String.eqb_spec (ContractTemplate.name u) n) as [E|E].
  - exfalso. exact (H u (or_introl eq_refl) E).
  - apply IH. intros t Ht. apply H. right. exact Ht.
Qed.
Lemma compilesInFlight_app (a b : list Pending) :
  compilesInFlight (a ++ b) = compilesInFlight a + compilesInFlight b.
Proof.
  induction a as [|p a IH]; simpl; [reflexivity|].
  destruct p; simpl; rewrite IH; reflexivity.
Qed.

Lemma noDeployPending_app (a b : list Pending) :
  noDeployPending (a ++ b) = noDeployPending a && noDeployPending b.
Proof. apply forallb_app. Qed.

(** A user event on the page either does nothing or runs the handler. *)
Lemma dispatch_cases (a : Action) (s : State) :
  (enabled a s = false /\ dispatch a s = ([], s, []))
  \/ (enabled a s = true /\ dispatch a s = handler a s).
Proof.
  unfold dispatch, bind, get.
  destruct (enabled a s) eqn:E.
  - right. split; [reflexivity|].
    destruct (handler a s) as [[r s'] l]. reflexivity.
  - left. split; reflexivity.
Qed.

Lemma connectionInv_handler (a : Action) (w : World) :
  connectionInv w ->
  let r := handler a (store w) in
  connectionInv (mkWorld (storeOf r) (pending w ++ resultOf r)).
Proof.
  destruct w as [s ps]. unfold connectionInv. simpl. intros Inv.
  destruct a; run.
  - rewrite app_nil_r. exact Inv.
  - rewrite app_nil_r. exact Inv.
  - destruct (find _ (templates s)); cbn; rewrite app_nil_r; intros H;
      destruct (Inv H) as (Hw & Hd & Hp); auto.
  - destruct (Js.not_ (Js.trim (code s)) || Js.not_ (Js.trim (contractName s)));
      cbn; intros H; destruct (Inv H) as (Hw & Hd & Hp).
    + rewrite app_nil_r. auto.
    + rewrite noDeployPending_app, Hp. auto.
  - destruct (compileSucceeded s); cbn; rewrite app_nil_r; exact Inv.
  - destruct (negb (compileSucceeded s)); cbn.
    + rewrite app_nil_r. exact Inv.
    + destruct (WalletConnection.isSignedIn (wallet s)) eqn:E; cbn.
      * intros H. destruct (Inv H) as (Hw & _). rewrite Hw in E. discriminate.
      * rewrite app_nil_r. exact Inv.
  - destruct (nearConnection s) eqn:E; cbn; rewrite app_nil_r; rewrite E;
      exact Inv.
  - destruct (nearConnection s) eqn:E; cbn; rewrite app_nil_r; rewrite E.
    + discriminate.
    + exact Inv.
Qed.

Lemma connectionInv_dispatch (a : Action) (w : World) :
  connectionInv w ->
  let r := dispatch a (store w) in
  connectionInv (mkWorld (storeOf r) (pending w ++ resultOf r)).
Proof.
  intros Inv r. subst r.
  destruct (dispatch_cases a (store w)) as [[_ E]|[_ E]]; rewrite E.
  - unfold storeOf, resultOf. simpl. rewrite app_nil_r.
    destruct w; exact Inv.
  - exact (connectionInv_handler a w Inv).
Qed.

Lemma connectionInv_resume (p : Pending) (reply : Reply p) (w : World)
    (before after : list Pending) :
  pending w = (before ++ p :: after)%list ->
  connectionInv w ->
  let r := resume p reply (store w) in
  connectionInv (mkWorld (storeOf r) (before ++ after ++ resultOf r)).
Proof.
  destruct w as [s ps]. unfold connectionInv. simpl. intros -> Inv.
  assert (Hsplit : forall q,
             noDeployPending (before ++ q :: after) = true ->
             noDeployPending (before ++ after) = true).
  { intros q H. rewrite noDeployPending_app in *. simpl in H.
    apply andb_true_iff in H. destruct H as [H1 H2].
    apply andb_true_iff in H2. destruct H2 as [_ H2].
    rewrite H1, H2. reflexivity. }
  assert (Hdep : isDeployPending p = true -> nearConnection s = None -> False).
  { intros Hq H. destruct (Inv H) as (_ & _ & Hp).
    rewrite noDeployPending_app in Hp. simpl in Hp.
    rewrite Hq in Hp. simpl in Hp. rewrite andb_false_r in Hp. discriminate. }
  destruct p; simpl in reply.
  - destruct reply as [data|error]; run; rewrite app_nil_r; intros H;
      destruct (Inv H) as (Hw & Hd & Hp); eauto.
  - destruct reply as [session|error]; run.
    + destruct (sessionSignedIn session); cbn; discriminate.
    + rewrite app_nil_r. intros H. destruct (Inv H) as (Hw & Hd & Hp); eauto.
  - destruct reply as [data|error]; run; rewrite app_nil_r; intros H;
      destruct (Inv H) as (Hw & Hd & Hp); eauto.
  - destruct reply as [[data|error] now]; run;
      [destruct (nearConnection closure); cbn|];
      intros H; exfalso; exact (Hdep eq_refl H).
  - destruct reply as [res|error]; run;
      intros H; exfalso; exact (Hdep eq_refl H).
Qed.

Lemma connectionInv_init : connectionInv initialWorld.
Proof. intros _. repeat split. Qed.

(** [connectionInv] holds in every world of a session, on the page or
    with handlers invoked freely. *)
Lemma reachable_connectionInv (ui : bool) (w : World) :
  reachable ui w -> connectionInv w.
Proof.
  induction 1 as [|w l w' _ IH Hstep].
  - exact connectionInv_init.
  - inversion Hstep as [a w0 r0 | p reply w0 before after Hp r0]; subst.
    + destruct ui.
      * exact (connectionInv_dispatch a w IH).
      * exact (connectionInv_handler a w IH).
    + exact (connectionInv_resume p reply w before after Hp IH).
Qed.

Lemma compileInv_dispatch (a : Action) (w : World) :
  compileInv w ->
  let r := dispatch a (store w) in
  compileInv (mkWorld (storeOf r) (pending w ++ resultOf r)).
Proof.
  intros Inv r. subst r.
  destruct (dispatch_cases a (store w)) as [[_ E]|[En E]]; rewrite E; clear E.
  { unfold storeOf, resultOf. simpl. rewrite app_nil_r. destruct w; exact Inv. }
  destruct w as [s ps]. unfold compileInv in *. simpl in *.
  destruct Inv as [Hc Hr].
  destruct a; run; rewrite ?app_nil_r; auto.
  - destruct (find _ (templates s)); cbn; rewrite app_nil_r; auto.
  - unfold enabled in En. apply andb_true_iff in En. destruct En as [_ En].
    apply negb_true_iff in En.
    destruct (Js.not_ (Js.trim (code s)) || Js.not_ (Js.trim (contractName s)));
      cbn; rewrite ?app_nil_r; auto.
    rewrite compilesInFlight_app, Hc, En. simpl. auto.
  - destruct (compileSucceeded s); cbn; rewrite app_nil_r; auto.
  - destruct (negb (compileSucceeded s)); cbn; rewrite ?app_nil_r; auto.
    destruct (negb (WalletConnection.isSignedIn (wallet s))); cbn;
      rewrite ?app_nil_r; auto.
    rewrite compilesInFlight_app. simpl. rewrite Nat.add_0_r. auto.
  - destruct (nearConnection s); cbn; rewrite app_nil_r; auto.
  - destruct (nearConnection s); cbn; rewrite app_nil_r; auto.
Qed.

Lemma compileInv_resume (p : Pending) (reply : Reply p) (w : World)
    (before after : list Pending) :
  pending w = (before ++ p :: after)%list ->
  compileInv w ->
  let r := resume p reply (store w) in
  compileInv (mkWorld (storeOf r) (before ++ after ++ resultOf r)).
Proof.
  destruct w as [s ps]. unfold compileInv. simpl. intros -> [Hc Hr].
  rewrite compilesInFlight_app in Hc.
  destruct p; simpl in reply; simpl in Hc.
  - destruct reply as [data|error]; run; rewrite app_nil_r;
      rewrite compilesInFlight_app; auto.
  - destruct reply as [session|error]; run;
      [destruct (sessionSignedIn session); cbn|];
      rewrite app_nil_r; rewrite compilesInFlight_app; auto.
  - assert (Hz : compilesInFlight before + compilesInFlight after = 0).
    { destruct (compiling s); lia. }
    destruct reply as [data|error]; run; rewrite app_nil_r;
      rewrite compilesInFlight_app; split; auto; discriminate.
  - destruct reply as [[data|error] now]; run;
      [destruct (nearConnection closure); cbn|];
      rewrite ?app_nil_r; rewrite !compilesInFlight_app; simpl;
      rewrite ?Nat.add_0_r; auto.
  - destruct reply as [res|error]; run; rewrite app_nil_r;
      rewrite compilesInFlight_app; auto.
Qed.

Lemma compileInv_init : compileInv initialWorld.
Proof. split; [reflexivity | discriminate]. Qed.

(** [compileInv] holds in every world of a session driven through the
    page. *)
Lemma reachable_compileInv (w : World) :
  reachable true w -> compileInv w.
Proof.
  induction 1 as [|w l w' _ IH Hstep].
  - exact compileInv_init.
  - inversion Hstep as [a w0 r0 | p reply w0 before after Hp r0]; subst.
    + exact (compileInv_dispatch a w IH).
    + exact (compileInv_resume p reply w before after Hp IH).
Qed.

(* ================================================================== *)
(** ** The sample session *)
(* ================================================================== *)

Lemma reachable_afterUser (a : Action) (w : World) :
  reachable true w -> reachable true (afterUser a w).
Proof. intros H. exact (reach_step true w _ _ H (step_user true a w)). Qed.

Lemma reachable_afterSettle (ui : bool) (before : list Pending) (p : Pending)
    (reply : Reply p) (after : list Pending) (w : World) :
  pending w = (before ++ p :: after)%list ->
  reachable ui w -> reachable ui (afterSettle before p reply after w).
Proof.
  intros Hp H.
  exact (reach_step ui w _ _ H (step_settle ui p reply w before after Hp)).
Qed.

Lemma reachable_world4 : reachable true world4.
Proof.
  apply reachable_afterSettle; [vm_compute; reflexivity|].
  apply reachable_afterUser.
  apply reachable_afterSettle; [vm_compute; reflexivity|].
  apply reachable_afterSettle; [vm_compute; reflexivity|].
  apply reach_init.
Defined.

Lemma reachable_world5 : reachable true world5.
Proof. apply reachable_afterUser. exact reachable_world4. Defined.

Lemma reachable_deployFailedWorld : reachable true deployFailedWorld.
Proof.
  apply reachable_afterSettle; [vm_compute; reflexivity|]. exact reachable_world5.
Defined.

Lemma reachable_staleDeployWorld : reachable true staleDeployWorld.
Proof.
  apply reachable_afterSettle; [vm_compute; reflexivity|].
  apply reachable_afterUser. exact reachable_world5.
Defined.

Example world4_store :
  store world4
  = mkState defaultCode "hello_near" false false
      (Some (CompileResponse.mk true "Finished" None (Some 1024%N))) None
      sampleTemplates EmptyString false
      (WalletConnection.mk "alice.testnet" true) (Some nearHandle)
  /\ pending world4 = [].
Proof. split; reflexivity. Qed.

Example staleDeployWorld_store :
  store staleDeployWorld
  = mkState defaultCode "hello_near" true false None
      (Some (DeployResponse.mk false None None (Some "Network Error")))
      sampleTemplates EmptyString false
      (WalletConnection.mk "alice.testnet" true) (Some nearHandle)
  /\ pending staleDeployWorld = [PendCompile].
Proof. split; reflexivity. Qed.

(* ================================================================== *)
(** ** The deploy guard *)
(* ================================================================== *)

Lemma deployReady_spec (s : State) :
  deployReady s = true <->
  (exists r, compileResult s = Some r /\ CompileResponse.success r = true)
  /\ WalletConnection.isSignedIn (wallet s) = true.
Proof.
  unfold deployReady, compileSucceeded. rewrite andb_true_iff.
  destruct (compileResult s) as [r|]; split.
  - intros [H1 H2]. split; [exists r; auto | exact H2].
  - intros [[r' [E H1]] H2]. injection E as <-. auto.
  - intros [H _]. discriminate.
  - intros [[r' [E _]] _]. discriminate.
Qed.

(** No handler but [deployContract] raises [deploying], and it does so
    only past its two checks. *)
Lemma deploying_handler (a : Action) (s : State) :
  deploying s = false ->
  deploying (storeOf (handler a s)) = true ->
  deployReady s = true.
Proof.
  intros Hd.
  destruct a; run; try congruence.
  - destruct (find _ (templates s)); cbn; congruence.
  - destruct (Js.not_ (Js.trim (code s)) || Js.not_ (Js.trim (contractName s)));
      cbn; congruence.
  - destruct (compileSucceeded s); cbn; congruence.
  - unfold deployReady.
    destruct (compileSucceeded s); cbn; [|congruence].
    destruct (WalletConnection.isSignedIn (wallet s)); cbn; congruence.
  - destruct (nearConnection s); cbn; congruence.
  - destruct (nearConnection s); cbn; congruence.
Qed.

(** No continuation raises [deploying]. *)
Lemma deploying_resume (p : Pending) (reply : Reply p) (s : State) :
  deploying s = false ->
  deploying (storeOf (resume p reply s)) = false.
Proof.
  intros Hd. destruct p; simpl in reply.
  - destruct reply; run; exact Hd.
  - destruct reply as [session|error]; run;
      [destruct (sessionSignedIn session); cbn|]; exact Hd.
  - destruct reply; run; exact Hd.
  - destruct reply as [[data|error] now]; run;
      [destruct (nearConnection closure); cbn|]; auto.
  - destruct reply; run; reflexivity.
Qed.

(** C1. [deploying] goes from false to true, in any turn of the session,
    only if at that instant the last compile result exists with
    [success = true] and the wallet is signed in; and [deployContract]
    invoked when one of the two fails raises an [alert], issues no request,
    starts no [await] and leaves the store (hence both results) as it was. *)
Theorem deploy_guard :
  (forall (ui : bool) (w w' : World) (l : Log),
      step ui w l w' ->
      deploying (store w) = false ->
      deploying (store w') = true ->
      (exists r, compileResult (store w) = Some r
                 /\ CompileResponse.success r = true)
      /\ WalletConnection.isSignedIn (wallet (store w)) = true)
  /\ (forall s : State,
         compileSucceeded s = false
         \/ WalletConnection.isSignedIn (wallet s) = false ->
         storeOf (deployContract s) = s
         /\ resultOf (deployContract s) = []
         /\ (exists msg, effects (logOf (deployContract s)) = [Alert msg])
         /\ filter isNetwork (effects (logOf (deployContract s))) = []).
Proof.
  split.
  - intros ui w w' l Hstep Hd Hd'. apply deployReady_spec.
    inversion Hstep as [a w0 r0 | p reply w0 before after Hp r0]; subst;
      subst r0; simpl in Hd'.
    + destruct ui.
      * destruct (dispatch_cases a (store w)) as [[_ E]|[_ E]];
          rewrite E in Hd'.
        -- unfold storeOf in Hd'. simpl in Hd'. congruence.
        -- exact (deploying_handler a (store w) Hd Hd').
      * exact (deploying_handler a (store w) Hd Hd').
    + rewrite (deploying_resume p reply (store w) Hd) in Hd'. discriminate.
  - intros s H.
    assert (Hn : deployReady s = false).
    { unfold deployReady. destruct H as [H|H]; rewrite H;
        [reflexivity | apply andb_false_r]. }
    destruct (deployContract_not_ready s Hn) as [msg E]. rewrite E.
    repeat split. exists msg. reflexivity.
Qed.

(** [deploy_guard] at the sample session: the click on Deploy in [world4],
    and a click on Deploy before anything was compiled. *)
Lemma deploy_guard_witness :
  ((exists r, compileResult (store world4) = Some r
              /\ CompileResponse.success r = true)
   /\ WalletConnection.isSignedIn (wallet (store world4)) = true)
  /\ storeOf (deployContract initialState) = initialState.
Proof.
  destruct deploy_guard as [A B]. split.
  - apply (A true world4 world5 _ (step_user true ClickDeploy world4));
      reflexivity.
  - apply (B initialState). left. reflexivity.
Defined.

(* ================================================================== *)
(** ** The compile guard *)
(* ================================================================== *)

(** C2, as stated, fails: [compileContract] does not look at [compiling].
    Invoked on a store with a compile in flight and non-blank inputs it posts
    another request to [/compile] and raises no [alert]. *)
Lemma compile_handler_ignores_flag :
  compiling compilingState = true
  /\ effects (logOf (compileContract compilingState))
     = [AxiosPost "http://localhost:8080/compile" defaultCode "hello_near"]
  /\ resultOf (compileContract compilingState) = [PendCompile].
Proof. repeat split. Qed.

(** C2, amended.  In a session driven through the page, [compiling] is true
    exactly while one request to [/compile] is in flight, there is never
    more than one, and while [compiling] is true the Compile button is
    disabled: a click on it runs nothing, issues no request, raises no
    [alert] and leaves the store as it is. *)
Theorem compile_button_guard (w : World) (Hreach : reachable true w) :
  compilesInFlight (pending w) = (if compiling (store w) then 1 else 0)
  /\ compilesInFlight (pending w) <= 1
  /\ (compiling (store w) = true ->
      enabled ClickCompile (store w) = false
      /\ dispatch ClickCompile (store w) = ([], store w, [])).
Proof.
  destruct (reachable_compileInv w Hreach) as [Hc _].
  split; [exact Hc|]. split.
  - rewrite Hc. destruct (compiling (store w)); lia.
  - intros Hcomp.
    assert (En : enabled ClickCompile (store w) = false).
    { unfold enabled. rewrite Hcomp. apply andb_false_r. }
    split; [exact En|].
    destruct (dispatch_cases ClickCompile (store w)) as [[_ E]|[En' _]];
      [exact E | congruence].
Qed.

Lemma reachable_world3 : reachable true world3.
Proof.
  apply reachable_afterUser.
  apply reachable_afterSettle; [vm_compute; reflexivity|].
  apply reachable_afterSettle; [vm_compute; reflexivity|].
  apply reach_init.
Defined.

(** [compile_button_guard] in [world3], where a compile is in flight. *)
Lemma compile_button_guard_witness :
  compiling (store world3) = true
  /\ compilesInFlight (pending world3) = 1
  /\ dispatch ClickCompile (store world3) = ([], store world3, []).
Proof.
  pose proof (compile_button_guard world3 reachable_world3) as [H1 [_ H3]].
  split; [reflexivity|]. split; [exact H1|].
  apply H3. reflexivity.
Defined.

(* ================================================================== *)
(** ** Compile: validation *)
(* ================================================================== *)

Lemma compileInputsOk_spec (s : State) :
  compileInputsOk s = true <->
  Js.trim (code s) <> EmptyString /\ Js.trim (contractName s) <> EmptyString.
Proof.
  unfold compileInputsOk. rewrite negb_true_iff, orb_false_iff.
  destruct (Js.trim (code s)), (Js.trim (contractName s)); simpl;
    split; intros [H1 H2]; try discriminate; try congruence;
    split; congruence.
Qed.

(** C3. When [code] or [contractName] is empty after trimming,
    [compileContract] raises the [alert], issues no request, starts no
    [await] and leaves the whole store, results and flags included, as it
    was. *)
Theorem compile_rejects_blank (s : State)
    (Hblank : Js.trim (code s) = EmptyString
              \/ Js.trim (contractName s) = EmptyString) :
  storeOf (compileContract s) = s
  /\ resultOf (compileContract s) = []
  /\ effects (logOf (compileContract s))
     = [Alert "Please provide both contract name and code"]
  /\ filter isNetwork (effects (logOf (compileContract s))) = [].
Proof.
  assert (Hn : compileInputsOk s = false).
  { destruct (compileInputsOk s) eqn:E; [|reflexivity].
    apply compileInputsOk_spec in E. destruct E as [E1 E2].
    destruct Hblank; contradiction. }
  rewrite (compileContract_blank s Hn). repeat split.
Qed.

(** [compile_rejects_blank] on [blankNameState], whose contract name is a
    tab and two spaces. *)
Lemma compile_rejects_blank_witness :
  Js.trim (contractName blankNameState) = EmptyString
  /\ storeOf (compileContract blankNameState) = blankNameState
  /\ filter isNetwork (effects (logOf (compileContract blankNameState))) = [].
Proof.
  assert (H : Js.trim (contractName blankNameState) = EmptyString)
    by reflexivity.
  split; [exact H|].
  destruct (compile_rejects_blank blankNameState (or_intror H))
    as (H1 & _ & _ & H4).
  split; [exact H1 | exact H4].
Defined.

(* ================================================================== *)
(** ** Compile: the cycle *)
(* ================================================================== *)

(** C4. With inputs that are not blank, [compileContract] starts exactly
    one [await]; whatever the store is when the request settles, the
    continuation ends with [compiling = false] and [compileResult] set: to
    the response data when the request is fulfilled, and to
    [{success: false, output: '', errors: `Network error: ${error}`}], whose
    [errors] is not empty, when it is rejected.  The same holds for the
    cycle run in one go. *)
Theorem compile_cycle_terminal (s : State)
    (response : Js.Settled CompileResponse.t)
    (Hcode : Js.trim (code s) <> EmptyString)
    (Hname : Js.trim (contractName s) <> EmptyString) :
  resultOf (compileContract s) = [PendCompile]
  /\ (forall st : State,
         let r := compileContract_settled response st in
         resultOf r = []
         /\ compiling (storeOf r) = false
         /\ exists res,
             compileResult (storeOf r) = Some res
             /\ match response with
                | Js.Fulfilled data => res = data
                | Js.Rejected error =>
                    CompileResponse.success res = false
                    /\ CompileResponse.output res = EmptyString
                    /\ exists m,
                        CompileResponse.errors res = Some m
                        /\ m = "Network error: " ++ Js.errorToString error
                        /\ m <> EmptyString
                end)
  /\ compiling (storeOf (compileCycle response s)) = false
  /\ compileResult (storeOf (compileCycle response s))
     = compileResult (storeOf (compileContract_settled response s))
  /\ compileResult (storeOf (compileCycle response s)) <> None.
Proof.
  assert (Hok : compileInputsOk s = true).
  { apply compileInputsOk_spec. split; assumption. }
  pose proof (compileContract_ok s Hok) as E. cbv zeta in E.
  split; [rewrite E; reflexivity|].
  split.
  - intros st. destruct response as [data|error]; run.
    + repeat split. exists data. split; reflexivity.
    + repeat split. eexists. split; [reflexivity|].
      repeat split. eexists. split; [reflexivity|].
      split; [reflexivity | discriminate].
  - unfold compileCycle, bind. rewrite E.
    destruct response as [data|error]; run; repeat split; discriminate.
Qed.

(** [compile_cycle_terminal] in [world2], the request failing at network
    level. *)
Lemma compile_cycle_terminal_witness :
  Js.trim (code (store world2)) <> EmptyString
  /\ Js.trim (contractName (store world2)) <> EmptyString
  /\ compiling (storeOf (compileCycle (Js.Rejected networkError) (store world2)))
     = false
  /\ compileResult
       (storeOf (compileCycle (Js.Rejected networkError) (store world2)))
     <> None.
Proof.
  assert (H1 : Js.trim (code (store world2)) <> EmptyString)
    by (vm_compute; discriminate).
  assert (H2 : Js.trim (contractName (store world2)) <> EmptyString)
    by (vm_compute; discriminate).
  split; [exact H1|]. split; [exact H2|].
  destruct (compile_cycle_terminal (store world2) (Js.Rejected networkError)
              H1 H2)
    as (_ & _ & H3 & _ & H5).
  split; [exact H3 | exact H5].
Defined.

Example compile_network_failure_ex :
  compileResult (storeOf (compileCycle (Js.Rejected networkError) (store world2)))
  = Some (CompileResponse.mk false EmptyString
            (Some "Network error: AxiosError: Network Error") None).
Proof. reflexivity. Qed.

(** C5, as stated, fails in its last part: a result of an earlier cycle can
    be held while a compile is in flight.  In [staleDeployWorld], reached
    through the page, Deploy was clicked, then Compile, and then the
    download of the artifact failed: [compiling] is true, the request to
    [/compile] is still pending, and [deployResult] holds the failure of the
    deploy that was started before this compile. *)
Lemma stale_deploy_result_during_compile :
  reachable true staleDeployWorld
  /\ compiling (store staleDeployWorld) = true
  /\ pending staleDeployWorld = [PendCompile]
  /\ deployResult (store staleDeployWorld)
     = Some (DeployResponse.mk false None None (Some "Network Error")).
Proof.
  split; [exact reachable_staleDeployWorld|]. repeat split.
Qed.

(** C5, amended.  With inputs that are not blank, [compileContract] sets
    [compiling] to true and both results to [null] before it issues the
    request: the store logged with the request has them so, the request is
    the only effect, and nothing else in the store changes.  In a session
    driven through the page [compileResult] then stays [null] for as long as
    [compiling] is true. *)
Theorem compile_clears_before_request :
  (forall s : State,
      Js.trim (code s) <> EmptyString ->
      Js.trim (contractName s) <> EmptyString ->
      exists s',
        compileContract s
        = ([PendCompile], s',
           [(AxiosPost (API_BASE_URL ++ "/compile") (code s) (contractName s),
             s')])
        /\ compiling s' = true
        /\ compileResult s' = None
        /\ deployResult s' = None
        /\ s' = setDeployResult None (setCompileResult None (setCompiling true s)))
  /\ (forall w : World,
         reachable true w ->
         compiling (store w) = true ->
         compileResult (store w) = None).
Proof.
  split.
  - intros s Hcode Hname.
    assert (Hok : compileInputsOk s = true).
    { apply compileInputsOk_spec. split; assumption. }
    eexists. split; [exact (compileContract_ok s Hok)|].
    repeat split.
  - intros w Hreach. exact (proj2 (reachable_compileInv w Hreach)).
Qed.

(** [compile_clears_before_request] in [world5], which holds a compile
    result and has a deploy in flight, and in [staleDeployWorld]. *)
Lemma compile_clears_before_request_witness :
  (exists s',
      storeOf (compileContract (store world5)) = s'
      /\ compiling s' = true
      /\ compileResult s' = None
      /\ deployResult s' = None)
  /\ compileResult (store staleDeployWorld) = None.
Proof.
  destruct compile_clears_before_request as [A B]. split.
  - destruct (A (store world5)) as (s' & E & H1 & H2 & H3 & _);
      [vm_compute; discriminate | vm_compute; discriminate |].
    exists s'. rewrite E. repeat split; assumption.
  - apply (B staleDeployWorld reachable_staleDeployWorld). reflexivity.
Defined.

(* ================================================================== *)
(** ** Deploy: the cycle *)
(* ================================================================== *)

(** Proves [deployFailure] of a literal failure response. *)
Ltac failure_shape :=
  repeat split; eexists;
  (split; [reflexivity | first [discriminate | apply or_nonempty; discriminate]]).

Lemma deployContract_catch_failure (error : Js.Error) (st : State) :
  let r := (deployContract_catch error ;; deployContract_finally ;; ret [])%handler
             st in
  resultOf r = @nil Pending
  /\ deploying (storeOf r) = false
  /\ effects (logOf r) = [ConsoleError "Deployment failed:" error]
  /\ exists d, deployResult (storeOf r) = Some d /\ deployFailure d.
Proof.
  run. repeat split. eexists. split; [reflexivity|].
  repeat split. eexists. split; [reflexivity|].
  apply or_nonempty. discriminate.
Qed.

(** In a session a store that passes the checks of [deployContract] has a
    wallet connection. *)
Lemma reachable_ready_connected (ui : bool) (w : World) :
  reachable ui w ->
  WalletConnection.isSignedIn (wallet (store w)) = true ->
  nearConnection (store w) <> None.
Proof.
  intros Hreach Hs Hn.
  destruct (reachable_connectionInv ui w Hreach Hn) as (Hw & _).
  rewrite Hw in Hs. discriminate.
Qed.

Lemma deployCycle_run (s : State) (env : DeployEnv) :
  deployReady s = true ->
  let r := deployCycle env s in
  resultOf r = []
  /\ deploying (storeOf r) = false
  /\ exists d,
      deployResult (storeOf r) = Some d
      /\ match wasmResponse env, nearConnection s, deployOutcome env with
         | Js.Fulfilled _, Some _, Js.Fulfilled res =>
             d = DeployResponse.mk true (Some (transaction_hash res))
                   (Some (cycleContractId s env)) None
         | _, _, _ => deployFailure d
         end.
Proof.
  intros Hready. pose proof (deployContract_ready s Hready) as E.
  cbv zeta in E. unfold deployCycle, bind. rewrite E.
  destruct (wasmResponse env) as [wasm|error]; run.
  - destruct (nearConnection s) as [h|]; cbn.
    + destruct (deployOutcome env) as [res|error]; cbn.
      * repeat split. eexists. split; reflexivity.
      * repeat split. eexists. split; [reflexivity | failure_shape].
    + repeat split. eexists. split; [reflexivity | failure_shape].
  - repeat split. eexists. split; [reflexivity|].
    destruct (nearConnection s); failure_shape.
Qed.

(** C6. A [deployContract] invocation that passes the two checks starts the
    download; whatever the store is when an [await] settles, every way the
    cycle can end leaves [deploying = false] and [deployResult] set.  A
    rejected download, a rejected [account.deployContract] and an exception
    in between all give the one failure shape
    [{success: false, error: <not empty>}]; when both requests are fulfilled
    the result is [{success: true, transactionHash, contractId}] with the
    hash of the transaction and the identifier derived in the cycle. *)
Theorem deploy_cycle_terminal (s : State)
    (Hcompiled : compileSucceeded s = true)
    (Hsigned : WalletConnection.isSignedIn (wallet s) = true) :
  resultOf (deployContract s) = [PendWasm s]
  /\ (forall (wasm : Js.Settled (list Byte.byte)) (now : N) (st : State),
         let r := deployContract_fetched s wasm now st in
         match wasm, nearConnection s with
         | Js.Fulfilled data, Some _ =>
             resultOf r
             = [PendDeploy (deploymentId (contractName s) now
                              (WalletConnection.accountId (wallet s)))]
             /\ storeOf r = st
             /\ effects (logOf r) = [DeployContract data]
         | _, _ =>
             resultOf r = []
             /\ deploying (storeOf r) = false
             /\ exists d, deployResult (storeOf r) = Some d /\ deployFailure d
         end)
  /\ (forall (contractId : string) (outcome : Js.Settled FinalExecutionOutcome)
             (st : State),
         let r := deployContract_submitted contractId outcome st in
         resultOf r = []
         /\ deploying (storeOf r) = false
         /\ exists d,
             deployResult (storeOf r) = Some d
             /\ match outcome with
                | Js.Fulfilled res =>
                    d = DeployResponse.mk true (Some (transaction_hash res))
                          (Some contractId) None
                | Js.Rejected _ => deployFailure d
                end)
  /\ (forall env : DeployEnv,
         let r := deployCycle env s in
         resultOf r = []
         /\ deploying (storeOf r) = false
         /\ exists d,
             deployResult (storeOf r) = Some d
             /\ match wasmResponse env, nearConnection s, deployOutcome env with
                | Js.Fulfilled _, Some _, Js.Fulfilled res =>
                    d = DeployResponse.mk true (Some (transaction_hash res))
                          (Some (cycleContractId s env)) None
                | _, _, _ => deployFailure d
                end).
Proof.
  assert (Hready : deployReady s = true).
  { unfold deployReady. rewrite Hcompiled, Hsigned. reflexivity. }
  split.
  { pose proof (deployContract_ready s Hready) as E. cbv zeta in E.
    rewrite E. reflexivity. }
  split.
  { intros wasm now st.
    destruct wasm as [data|error]; [destruct (nearConnection s) eqn:En|].
    - unfold deployContract_fetched. rewrite En. run. repeat split.
    - unfold deployContract_fetched. rewrite En.
      destruct (deployContract_catch_failure nullWalletError st)
        as (H1 & H2 & _ & H4).
      repeat split; assumption.
    - unfold deployContract_fetched.
      destruct (deployContract_catch_failure error st) as (H1 & H2 & _ & H4).
      destruct (nearConnection s); repeat split; assumption. }
  split.
  { intros contractId outcome st. destruct outcome as [res|error].
    - run. repeat split. eexists. split; reflexivity.
    - unfold deployContract_submitted.
      destruct (deployContract_catch_failure error st) as (H1 & H2 & _ & H4).
      repeat split; assumption. }
  intros env. exact (deployCycle_run s env Hready).
Qed.

(** [deploy_cycle_terminal] in [world4], the download of the artifact
    failing. *)
Lemma deploy_cycle_terminal_witness :
  compileSucceeded (store world4) = true
  /\ WalletConnection.isSignedIn (wallet (store world4)) = true
  /\ deploying (storeOf (deployCycle
                           (mkDeployEnv (Js.Rejected networkError) 0
                              (Js.Rejected networkError))
                           (store world4))) = false
  /\ exists d,
      deployResult (storeOf (deployCycle
                               (mkDeployEnv (Js.Rejected networkError) 0
                                  (Js.Rejected networkError))
                               (store world4))) = Some d
      /\ deployFailure d.
Proof.
  split; [reflexivity|]. split; [reflexivity|].
  destruct (deploy_cycle_terminal (store world4) eq_refl eq_refl)
    as (_ & _ & _ & H).
  destruct (H (mkDeployEnv (Js.Rejected networkError) 0
                 (Js.Rejected networkError))) as (_ & H2 & d & H3 & H4).
  split; [exact H2|]. exists d. split; [exact H3 | exact H4].
Defined.

Example deploy_success_ex :
  deployResult (storeOf (deployCycle sampleEnv (store world4)))
  = Some (DeployResponse.mk true (Some "9xTxHash")
            (Some "hello_near_1730000000000.alice.testnet") None).
Proof. reflexivity. Qed.






(* ================================================================== *)
(** ** Templates *)
(* ================================================================== *)

(** C8. For a template of the catalogue (names being unique in it),
    [loadTemplate] with its name sets [code] to the template's source and
    [contractName] to the name in lower case with every run of white space
    replaced by one underscore (so it holds no white space), sets both
    results to [null] and selects the template; nothing else changes and
    nothing is requested. *)
Theorem loadTemplate_known (s : State) (t : ContractTemplate.t)
    (Hin : In t (templates s))
    (Hunique : NoDup (map ContractTemplate.name (templates s))) :
  let r := loadTemplate (ContractTemplate.name t) s in
  code (storeOf r) = ContractTemplate.code t
  /\ contractName (storeOf r)
     = Js.replaceWhitespaceRuns (Js.toLowerCase (ContractTemplate.name t))
  /\ Js.allChars (fun c => negb (Js.isWhiteSpace c)) (contractName (storeOf r))
     = true
  /\ compileResult (storeOf r) = None
  /\ deployResult (storeOf r) = None
  /\ selectedTemplate (storeOf r) = ContractTemplate.name t
  /\ (compiling (storeOf r), deploying (storeOf r), templates (storeOf r),
      loading (storeOf r), wallet (storeOf r), nearConnection (storeOf r))
     = (compiling s, deploying s, templates s, loading s, wallet s,
        nearConnection s)
  /\ resultOf r = []
  /\ logOf r = [].
Proof.
  pose proof (find_unique_name (templates s) t Hunique Hin) as Hfind.
  cbv zeta. rewrite (loadTemplate_found _ t s Hfind).
  unfold storeOf, resultOf, logOf. cbn.
  repeat split. apply replaceRuns_no_whitespace.
Qed.

(** [loadTemplate_known] in [world4], loading the second template. *)
Lemma loadTemplate_known_witness :
  code (storeOf (loadTemplate "Fungible  Token" (store world4))) = "// token"
  /\ contractName (storeOf (loadTemplate "Fungible  Token" (store world4)))
     = "fungible_token"
  /\ compileResult (storeOf (loadTemplate "Fungible  Token" (store world4)))
     = None.
Proof.
  assert (Hin : In (ContractTemplate.mk "Fungible  Token" "A token contract"
                      "// token") (templates (store world4)))
    by (right; left; reflexivity).
  assert (Hu : NoDup (map ContractTemplate.name (templates (store world4)))).
  { repeat constructor; simpl; intuition discriminate. }
  destruct (loadTemplate_known (store world4) _ Hin Hu)
    as (H1 & H2 & _ & H4 & _).
  split; [exact H1|]. split; [exact (eq_trans H2 eq_refl) | exact H4].
Defined.

(** C10. [loadTemplate] with a name that no template of the catalogue has
    (the empty selection included, when no template is named so) only
    records the name in [selectedTemplate]: [code], [contractName],
    [compileResult], [deployResult] and the rest of the store stay as they
    were, and nothing is requested. *)
Theorem loadTemplate_unknown (s : State) (templateName : string)
    (Hnone : forall t, In t (templates s) ->
                       ContractTemplate.name t <> templateName) :
  let r := loadTemplate templateName s in
  code (storeOf r) = code s
  /\ contractName (storeOf r) = contractName s
  /\ compileResult (storeOf r) = compileResult s
  /\ deployResult (storeOf r) = deployResult s
  /\ selectedTemplate (storeOf r) = templateName
  /\ storeOf r = setSelectedTemplate templateName s
  /\ resultOf r = []
  /\ logOf r = [].
Proof.
  pose proof (find_no_name (templates s) templateName Hnone) as Hfind.
  cbv zeta. rewrite (loadTemplate_missing _ s Hfind).
  repeat split.
Qed.

(** [loadTemplate_unknown] in [world4], going back to the empty
    selection. *)
Lemma loadTemplate_unknown_witness :
  code (storeOf (loadTemplate EmptyString (store world4))) = code (store world4)
  /\ compileResult (storeOf (loadTemplate EmptyString (store world4)))
     = compileResult (store world4)
  /\ selectedTemplate (storeOf (loadTemplate EmptyString (store world4)))
     = EmptyString.
Proof.
  assert (Hnone : forall t, In t (templates (store world4)) ->
                            ContractTemplate.name t <> EmptyString).
  { intros t [<-|[<-|[]]]; discriminate. }
  destruct (loadTemplate_unknown (store world4) EmptyString Hnone)
    as (H1 & _ & H3 & _ & H5 & _).
  split; [exact H1|]. split; [exact H3 | exact H5].
Defined.

(* ================================================================== *)
(** ** Disconnecting the wallet *)
(* ================================================================== *)

Lemma disconnectWallet_connected (s : State) :
  nearConnection s <> None ->
  disconnectWallet s
  = ([], setDeployResult None (setWallet WalletConnection.signedOut s),
     [(SignOut, s)]).
Proof.
  intros H. run. destruct (nearConnection s); [reflexivity | congruence].
Qed.

Lemma disconnectWallet_unconnected (s : State) :
  nearConnection s = None -> disconnectWallet s = ([], s, []).
Proof. intros H. run. rewrite H. reflexivity. Qed.

(** C9. In every world of a session, [disconnectWallet] leaves the wallet
    at [{ accountId: '', isSignedIn: false }] and [deployResult] at [null],
    and leaves [compileResult], [code], [contractName], [selectedTemplate]
    and the rest of the store as they were. *)
Theorem disconnect_clears_deploy_result (ui : bool) (w : World)
    (Hreach : reachable ui w) :
  let r := disconnectWallet (store w) in
  wallet (storeOf r) = WalletConnection.signedOut
  /\ deployResult (storeOf r) = None
  /\ compileResult (storeOf r) = compileResult (store w)
  /\ code (storeOf r) = code (store w)
  /\ contractName (storeOf r) = contractName (store w)
  /\ selectedTemplate (storeOf r) = selectedTemplate (store w)
  /\ (compiling (storeOf r), deploying (storeOf r), templates (storeOf r),
      loading (storeOf r), nearConnection (storeOf r))
     = (compiling (store w), deploying (store w), templates (store w),
        loading (store w), nearConnection (store w))
  /\ resultOf r = [].
Proof.
  cbv zeta. destruct (nearConnection (store w)) as [h|] eqn:En.
  - rewrite disconnectWallet_connected by congruence.
    unfold storeOf, resultOf. cbn. rewrite En. repeat split.
  - rewrite (disconnectWallet_unconnected _ En).
    destruct (reachable_connectionInv ui w Hreach En) as (Hw & Hd & _).
    unfold storeOf, resultOf. cbn. rewrite En. repeat split; assumption.
Qed.

(** [disconnect_clears_deploy_result] in [deployFailedWorld], which holds a
    compile result and a deploy result. *)
Lemma disconnect_clears_deploy_result_witness :
  deployResult (store deployFailedWorld) <> None
  /\ deployResult (storeOf (disconnectWallet (store deployFailedWorld))) = None
  /\ wallet (storeOf (disconnectWallet (store deployFailedWorld)))
     = WalletConnection.signedOut
  /\ compileResult (storeOf (disconnectWallet (store deployFailedWorld)))
     = Some (CompileResponse.mk true "Finished" None (Some 1024%N)).
Proof.
  destruct (disconnect_clears_deploy_result true deployFailedWorld
              reachable_deployFailedWorld)
    as (H1 & H2 & H3 & _).
  split; [discriminate|]. split; [exact H2|]. split; [exact H1|].
  rewrite H3. reflexivity.
Defined.

(* ================================================================== *)
(** ** Further invariants of the session *)
(* ================================================================== *)

(** Splits the goal along the conditions a handler branches on. *)
Ltac crunch :=
  repeat (cbn;
          match goal with
          | |- context [if ?x then _ else _] => destruct x eqn:?
          | |- context [match ?x with Some _ => _ | None => _ end] =>
              destruct x eqn:?
          end);
  cbn.

(** Induction over a session: a property of the initial world that every
    handler (run where the page allows it, if the session goes through the
    page) and every continuation keeps holds in every world. *)
Lemma session_induction (ui : bool) (P : World -> Prop) :
  P initialWorld ->
  (forall (a : Action) (w : World),
      reachable ui w -> P w ->
      (ui = true -> enabled a (store w) = true) ->
      P (mkWorld (storeOf (handler a (store w)))
           (pending w ++ resultOf (handler a (store w))))) ->
  (forall (p : Pending) (reply : Reply p) (w : World)
          (before after : list Pending),
      reachable ui w -> P w ->
      pending w = (before ++ p :: after)%list ->
      P (mkWorld (storeOf (resume p reply (store w)))
           (before ++ after ++ resultOf (resume p reply (store w))))) ->
  forall w : World, reachable ui w -> P w.
Proof.
  intros Hinit Huser Hsettle w Hreach.
  induction Hreach as [|w l w' Hreach IH Hstep]; [exact Hinit|].
  inversion Hstep as [a w0 r0 | p reply w0 before after Hp r0]; subst; subst r0.
  - destruct ui.
    + destruct (dispatch_cases a (store w)) as [[_ E]|[En E]]; rewrite E.
      * unfold storeOf, resultOf. simpl. rewrite app_nil_r.
        destruct w; exact IH.
      * apply Huser; auto.
    + apply Huser; auto. discriminate.
  - apply Hsettle; auto.
Qed.

Lemma countPending_app (kind : Pending -> bool) (a b : list Pending) :
  countPending kind (a ++ b) = countPending kind a + countPending kind b.
Proof. unfold countPending. rewrite filter_app, length_app. reflexivity. Qed.

Lemma countPending_cons (kind : Pending -> bool) (p : Pending)
    (l : list Pending) :
  countPending kind (p :: l)
  = (if kind p then 1 else 0) + countPending kind l.
Proof. unfold countPending. simpl. destruct (kind p); reflexivity. Qed.

(** What a handler may start: nothing, a compile or a deploy. *)
Lemma handler_result (a : Action) (s : State) :
  resultOf (handler a s) = []
  \/ (a = ClickCompile /\ resultOf (handler a s) = [PendCompile]
      /\ compileInputsOk s = true)
  \/ (a = ClickDeploy /\ resultOf (handler a s) = [PendWasm s]
      /\ deployReady s = true).
Proof.
  destruct a; try (left; run; crunch; reflexivity).
  - simpl. destruct (compileInputsOk s) eqn:E.
    + right. left. rewrite (compileContract_ok s E). auto.
    + left. rewrite (compileContract_blank s E). reflexivity.
  - simpl. destruct (deployReady s) eqn:E.
    + right. right. rewrite (deployContract_ready s E). auto.
    + left. destruct (deployContract_not_ready s E) as [msg Em].
      rewrite Em. reflexivity.
Qed.

(** What a continuation may start: only the download of the artifact goes
    on, with the submission. *)
Lemma resume_result (p : Pending) (reply : Reply p) (s : State) :
  resultOf (resume p reply s) = []
  \/ exists cl contractId,
      p = PendWasm cl /\ resultOf (resume p reply s) = [PendDeploy contractId]
      /\ storeOf (resume p reply s) = s.
Proof.
  destruct p; simpl in reply.
  - left. destruct reply; reflexivity.
  - left. destruct reply as [session|error]; run; crunch; reflexivity.
  - left. destruct reply; reflexivity.
  - destruct reply as [[data|error] now]; run.
    + destruct (nearConnection closure); cbn.
      * right. eexists. eexists. repeat split.
      * left. reflexivity.
    + left. reflexivity.
  - left. destruct reply; reflexivity.
Qed.

(** No handler touches [loading], [templates] or [nearConnection]. *)
Lemma handler_frame (a : Action) (s : State) :
  loading (storeOf (handler a s)) = loading s
  /\ templates (storeOf (handler a s)) = templates s
  /\ nearConnection (storeOf (handler a s)) = nearConnection s.
Proof. destruct a; run; crunch; repeat split; congruence. Qed.

(** The catalogue and [loading] change only when the catalogue request
    settles, the connection only when [connect(config)] settles. *)
Lemma resume_frame (p : Pending) (reply : Reply p) (s : State) :
  (isTemplatesPending p = false ->
   loading (storeOf (resume p reply s)) = loading s
   /\ templates (storeOf (resume p reply s)) = templates s)
  /\ (isNearInitPending p = false ->
      nearConnection (storeOf (resume p reply s)) = nearConnection s)
  /\ (nearConnection s <> None ->
      nearConnection (storeOf (resume p reply s)) <> None).
Proof.
  destruct p; simpl in reply.
  - destruct reply; run; repeat split; try discriminate; auto.
  - destruct reply as [session|error]; run; crunch; repeat split;
      try discriminate; auto.
  - destruct reply; run; repeat split; auto.
  - destruct reply as [[data|error] now]; run; crunch; repeat split; auto.
  - destruct reply; run; repeat split; auto.
Qed.

Lemma handler_starts_no_mount_request (a : Action) (s : State) :
  templatesInFlight (resultOf (handler a s)) = 0
  /\ nearInitsInFlight (resultOf (handler a s)) = 0.
Proof.
  destruct (handler_result a s) as [E|[(_ & E & _)|(_ & E & _)]];
    rewrite E; split; reflexivity.
Qed.

Lemma resume_starts_no_mount_request (p : Pending) (reply : Reply p)
    (s : State) :
  templatesInFlight (resultOf (resume p reply s)) = 0
  /\ nearInitsInFlight (resultOf (resume p reply s)) = 0.
Proof.
  destruct (resume_result p reply s) as [E|(cl & cid & _ & E & _)];
    rewrite E; split; reflexivity.
Qed.

Lemma reachable_loadingInv (ui : bool) (w : World) :
  reachable ui w -> loadingInv w.
Proof.
  apply session_induction; unfold loadingInv; simpl.
  - split; [reflexivity | intros _; reflexivity].
  - intros a w0 _ [Hc Ht] _.
    destruct (handler_frame a (store w0)) as (El & Et & _).
    destruct (handler_starts_no_mount_request a (store w0)) as [Ez _].
    unfold templatesInFlight in *. rewrite countPending_app, Ez, El, Et.
    rewrite Nat.add_0_r. auto.
  - intros p reply w0 before after _ [Hc Ht] Hp.
    destruct (resume_starts_no_mount_request p reply (store w0)) as [Ez _].
    unfold templatesInFlight in *.
    rewrite Hp, countPending_app, countPending_cons in Hc.
    rewrite !countPending_app, Ez, Nat.add_0_r.
    destruct (isTemplatesPending p) eqn:Ep.
    + destruct p; try discriminate. simpl in reply.
      assert (Hz : countPending isTemplatesPending before
                   + countPending isTemplatesPending after = 0).
      { destruct (loading (store w0)); lia. }
      destruct reply; run; split; auto; discriminate.
    + destruct (resume_frame p reply (store w0)) as (Hf & _).
      destruct (Hf Ep) as [El Et]. rewrite El, Et. simpl in Hc. auto.
Qed.

Lemma reachable_initInv (ui : bool) (w : World) :
  reachable ui w -> initInv w.
Proof.
  apply session_induction; unfold initInv; simpl.
  - split; [auto | intros H; exfalso; apply H; reflexivity].
  - intros a w0 _ [Hc Hn] _.
    destruct (handler_frame a (store w0)) as (_ & _ & En).
    destruct (handler_starts_no_mount_request a (store w0)) as [_ Ez].
    unfold nearInitsInFlight in *. rewrite countPending_app, Ez, En.
    rewrite Nat.add_0_r. auto.
  - intros p reply w0 before after _ [Hc Hn] Hp.
    destruct (resume_starts_no_mount_request p reply (store w0)) as [_ Ez].
    unfold nearInitsInFlight in *.
    rewrite Hp, countPending_app, countPending_cons in Hc, Hn.
    rewrite !countPending_app, Ez, Nat.add_0_r.
    destruct (isNearInitPending p) eqn:Ep.
    + split; [lia | intros _; lia].
    + destruct (resume_frame p reply (store w0)) as (_ & Hf & _).
      rewrite (Hf Ep). simpl in Hc, Hn. auto.
Qed.

Lemma reachable_flagsInv (ui : bool) (w : World) :
  reachable ui w -> flagsInv w.
Proof.
  apply session_induction; unfold flagsInv; simpl.
  - split; discriminate.
  - intros a w0 _ [Hc Hd] _. destruct a; run; crunch; split; auto; discriminate.
  - intros p reply w0 before after _ [Hc Hd] _. destruct p; simpl in reply.
    + destruct reply; run; auto.
    + destruct reply as [session|error]; run; crunch; auto.
    + destruct reply; run; split; auto; discriminate.
    + destruct reply as [[data|error] now]; run; crunch; split; auto;
        discriminate.
    + destruct reply; run; split; auto; discriminate.
Qed.

Lemma handler_keeps_deploying (a : Action) (s : State) :
  a <> ClickDeploy ->
  deploying (storeOf (handler a s)) = deploying s
  /\ deploysInFlight (resultOf (handler a s)) = 0.
Proof.
  intros Ha. destruct a; try congruence; run; crunch; split; reflexivity.
Qed.

Lemma reachable_deployInv (w : World) :
  reachable true w -> deployInv w.
Proof.
  apply session_induction; unfold deployInv, deploysInFlight; simpl.
  - reflexivity.
  - intros a w0 _ Hc En. specialize (En eq_refl).
    rewrite countPending_app.
    destruct a;
      try (match goal with
           | |- context [handler ?a _] =>
               destruct (handler_keeps_deploying a (store w0)) as [Ed Ez];
               [discriminate|];
               unfold deploysInFlight in Ez; rewrite Ed, Ez, Nat.add_0_r;
               exact Hc
           end).
    destruct (handler_result ClickDeploy (store w0))
      as [E|[(Ea & _)|(_ & E & Hr)]]; [| discriminate |];
      change (handler ClickDeploy (store w0)) with (deployContract (store w0))
        in *.
    + rewrite E, Nat.add_0_r.
      assert (Ed : deploying (storeOf (deployContract (store w0)))
                   = deploying (store w0)).
      { destruct (deployReady (store w0)) eqn:Er.
        - rewrite (deployContract_ready _ Er) in E. discriminate.
        - destruct (deployContract_not_ready _ Er) as [msg Em].
          rewrite Em. reflexivity. }
      rewrite Ed. exact Hc.
    + rewrite E. simpl. rewrite (deployContract_ready _ Hr).
      unfold enabled in En. cbn.
      apply andb_true_iff in En. destruct En as [_ En].
      apply andb_true_iff in En. destruct En as [_ En].
      apply negb_true_iff, orb_false_iff in En. destruct En as [En _].
      rewrite Hc, En. reflexivity.
  - intros p reply w0 before after _ Hc Hp.
    rewrite Hp, countPending_app, countPending_cons in Hc.
    rewrite !countPending_app.
    destruct p; simpl in reply; simpl in Hc.
    + destruct reply; run; rewrite Nat.add_0_r; exact Hc.
    + destruct reply as [session|error]; run; crunch; rewrite Nat.add_0_r;
        exact Hc.
    + destruct reply; run; rewrite Nat.add_0_r; exact Hc.
    + assert (Hz : countPending isDeployPending before
                   + countPending isDeployPending after = 0
                   /\ deploying (store w0) = true).
      { destruct (deploying (store w0)); split; auto; lia. }
      destruct Hz as [Hz Hd].
      destruct reply as [[data|error] now]; run; crunch;
        rewrite ?Hd; cbn; lia.
    + assert (Hz : countPending isDeployPending before
                   + countPending isDeployPending after = 0).
      { destruct (deploying (store w0)); lia. }
      destruct reply; run; cbn; lia.
Qed.

Lemma reachable_closureInv (ui : bool) (w : World) :
  reachable ui w -> closureInv w.
Proof.
  apply session_induction; unfold closureInv; simpl.
  - intros cl [H|[H|[]]]; discriminate.
  - intros a w0 Hreach IH _ cl Hin. apply in_app_or in Hin.
    destruct Hin as [Hin|Hin]; [exact (IH cl Hin)|].
    destruct (handler_result a (store w0))
      as [E|[(_ & E & _)|(_ & E & Hr)]]; rewrite E in Hin;
      simpl in Hin; try tauto.
    + destruct Hin as [Hin|[]]. discriminate.
    + destruct Hin as [Hin|[]]. injection Hin as <-.
      split; [exact Hr|].
      apply (reachable_ready_connected ui w0 Hreach).
      unfold deployReady in Hr. apply andb_true_iff in Hr. tauto.
  - intros p reply w0 before after _ IH Hp cl Hin.
    apply in_app_or in Hin. destruct Hin as [Hin|Hin].
    + apply IH. rewrite Hp. apply in_or_app. left. exact Hin.
    + apply in_app_or in Hin. destruct Hin as [Hin|Hin].
      * apply IH. rewrite Hp. apply in_or_app. right. right. exact Hin.
      * destruct (resume_result p reply (store w0))
          as [E|(cl' & cid & _ & E & _)]; rewrite E in Hin; simpl in Hin.
        -- tauto.
        -- destruct Hin as [Hin|[]]. discriminate.
Qed.

(* ================================================================== *)
(** ** The catalogue request and the loading screen *)
(* ================================================================== *)

Lemma dispatch_loading (a : Action) (s : State) :
  loading s = true -> dispatch a s = ([], s, []).
Proof.
  intros H. destruct (dispatch_cases a s) as [[_ E]|[En _]]; [exact E|].
  unfold enabled in En. rewrite H in En. discriminate.
Qed.

(** X1. In every world of a session [loading] is true exactly while the
    request for the catalogue is in flight, and there is never more than
    one such request; while it is true the catalogue is empty and, the
    page showing the spinner only, no user event runs a handler. *)
Theorem loading_tracks_catalogue_request (ui : bool) (w : World)
    (Hreach : reachable ui w) :
  templatesInFlight (pending w) = (if loading (store w) then 1 else 0)
  /\ (loading (store w) = true ->
      templates (store w) = []
      /\ forall a : Action, dispatch a (store w) = ([], store w, [])).
Proof.
  destruct (reachable_loadingInv ui w Hreach) as [Hc Ht].
  split; [exact Hc|]. intros Hl. split; [exact (Ht Hl)|].
  intros a. exact (dispatch_loading a (store w) Hl).
Qed.

(** [loading_tracks_catalogue_request] in the initial world. *)
Lemma loading_tracks_catalogue_request_witness :
  templatesInFlight (pending initialWorld) = 1
  /\ dispatch ClickCompile (store initialWorld) = ([], store initialWorld, []).
Proof.
  destruct (loading_tracks_catalogue_request true initialWorld
              (reach_init true)) as [H1 H2].
  split; [exact H1|]. destruct (H2 eq_refl) as [_ H3]. exact (H3 ClickCompile).
Defined.

Lemma in_countPending (kind : Pending -> bool) (p : Pending)
    (before after : list Pending) :
  kind p = true ->
  1 <= countPending kind (before ++ p :: after).
Proof.
  intros H. rewrite countPending_app, countPending_cons, H. lia.
Qed.

(** X2. The catalogue is set at most once: once [loading] is false, no turn
    of the session changes [templates] or raises [loading] again. *)
Theorem catalogue_set_once (ui : bool) (w w' : World) (l : Log)
    (Hreach : reachable ui w)
    (Hloaded : loading (store w) = false)
    (Hstep : step ui w l w') :
  templates (store w') = templates (store w)
  /\ loading (store w') = false.
Proof.
  destruct (reachable_loadingInv ui w Hreach) as [Hc _].
  rewrite Hloaded in Hc.
  inversion Hstep as [a w0 r0 | p reply w0 before after Hp r0]; subst;
    subst r0; simpl.
  - destruct (handler_frame a (store w)) as (El & Et & _).
    destruct ui.
    + destruct (dispatch_cases a (store w)) as [[_ E]|[_ E]]; rewrite E.
      * split; [reflexivity | exact Hloaded].
      * rewrite El, Et. auto.
    + rewrite El, Et. auto.
  - destruct (isTemplatesPending p) eqn:Ep.
    + pose proof (in_countPending isTemplatesPending p before after Ep) as Hge.
      unfold templatesInFlight in Hc. rewrite Hp in Hc. lia.
    + destruct (resume_frame p reply (store w)) as (Hf & _).
      destruct (Hf Ep) as [El Et]. rewrite El, Et. auto.
Qed.

(** [catalogue_set_once] at the click on Deploy in [world4]. *)
Lemma catalogue_set_once_witness :
  templates (store world5) = sampleTemplates
  /\ loading (store world5) = false.
Proof.
  exact (catalogue_set_once true world4 world5 _ reachable_world4 eq_refl
           (step_user true ClickDeploy world4)).
Defined.

(** X3. When the request for the catalogue is rejected, the page comes up
    all the same: [loading] is lowered and nothing else in the store
    changes, the catalogue is empty, and every template selection only
    records the selected name. *)
Theorem catalogue_failure_degrades (ui : bool) (w : World) (error : Js.Error)
    (before after : list Pending)
    (Hreach : reachable ui w)
    (Hpending : pending w = (before ++ PendTemplates :: after)%list) :
  let w' := afterSettle before PendTemplates (Js.Rejected error) after w in
  reachable ui w'
  /\ store w' = setLoading false (store w)
  /\ templates (store w') = []
  /\ forall n : string,
      loadTemplate n (store w') = ([], setSelectedTemplate n (store w'), []).
Proof.
  destruct (reachable_loadingInv ui w Hreach) as [Hc Ht].
  assert (Hl : loading (store w) = true).
  { pose proof (in_countPending isTemplatesPending PendTemplates before after
                  eq_refl) as Hge.
    unfold templatesInFlight in Hc. rewrite Hpending in Hc.
    destruct (loading (store w)); [reflexivity | lia]. }
  cbv zeta. split.
  { exact (reachable_afterSettle ui before PendTemplates (Js.Rejected error)
             after w Hpending Hreach). }
  assert (Hs : store (afterSettle before PendTemplates (Js.Rejected error)
                        after w) = setLoading false (store w))
    by reflexivity.
  rewrite Hs. split; [reflexivity|]. split; [exact (Ht Hl)|].
  intros n. apply loadTemplate_missing. cbn. rewrite (Ht Hl). reflexivity.
Qed.

(** [catalogue_failure_degrades] in the initial world. *)
Lemma catalogue_failure_degrades_witness :
  templates (store (afterSettle [] PendTemplates (Js.Rejected networkError)
                      [PendNearInit] initialWorld)) = []
  /\ loading (store (afterSettle [] PendTemplates (Js.Rejected networkError)
                       [PendNearInit] initialWorld)) = false.
Proof.
  destruct (catalogue_failure_degrades true initialWorld networkError []
              [PendNearInit] (reach_init true) eq_refl) as (_ & H2 & H3 & _).
  split; [exact H3 | rewrite H2; reflexivity].
Defined.

(* ================================================================== *)
(** ** The wallet connection *)
(* ================================================================== *)

Lemma reachable_initFailedWorld : reachable true initFailedWorld.
Proof.
  apply reachable_afterSettle; [vm_compute; reflexivity|].
  apply reachable_afterSettle; [vm_compute; reflexivity|].
  apply reach_init.
Defined.

(** X4. When [connect(config)] has failed, the session stays without a
    wallet for good: no later turn stores a connection or starts another
    attempt, the wallet stays signed out, [connectWallet] and
    [disconnectWallet] do nothing at all, and [deployContract] is refused
    with an [alert], without a request and without touching the store. *)
Theorem near_init_failure_is_final (ui : bool) (w : World)
    (Hreach : reachable ui w)
    (Hnone : nearConnection (store w) = None)
    (Hsettled : nearInitsInFlight (pending w) = 0) :
  wallet (store w) = WalletConnection.signedOut
  /\ connectWallet (store w) = ([], store w, [])
  /\ disconnectWallet (store w) = ([], store w, [])
  /\ (exists msg, deployContract (store w) = ([], store w, [(Alert msg, store w)]))
  /\ (forall (l : Log) (w' : World),
         step ui w l w' ->
         nearConnection (store w') = None
         /\ nearInitsInFlight (pending w') = 0).
Proof.
  destruct (reachable_connectionInv ui w Hreach Hnone) as (Hw & _ & _).
  split; [exact Hw|]. split; [run; rewrite Hnone; reflexivity|].
  split; [exact (disconnectWallet_unconnected _ Hnone)|].
  split.
  { apply deployContract_not_ready. unfold deployReady. rewrite Hw.
    apply andb_false_r. }
  intros l w' Hstep.
  inversion Hstep as [a w0 r0 | p reply w0 before after Hp r0]; subst;
    subst r0; simpl.
  - destruct (handler_frame a (store w)) as (_ & _ & En).
    destruct (handler_starts_no_mount_request a (store w)) as [_ Ez].
    destruct ui.
    + destruct (dispatch_cases a (store w)) as [[_ E]|[_ E]]; rewrite E.
      * unfold storeOf, resultOf. simpl. rewrite app_nil_r. auto.
      * unfold nearInitsInFlight in *.
        rewrite En, countPending_app, Ez, Hsettled. auto.
    + unfold nearInitsInFlight in *.
      rewrite En, countPending_app, Ez, Hsettled. auto.
  - destruct (resume_starts_no_mount_request p reply (store w)) as [_ Ez].
    unfold nearInitsInFlight in *.
    rewrite Hp, countPending_app, countPending_cons in Hsettled.
    rewrite !countPending_app, Ez.
    destruct (isNearInitPending p) eqn:Ep; [lia|].
    destruct (resume_frame p reply (store w)) as (_ & Hf & _).
    rewrite (Hf Ep). split; [exact Hnone | simpl in Hsettled; lia].
Qed.

(** [near_init_failure_is_final] in [initFailedWorld]. *)
Lemma near_init_failure_is_final_witness :
  nearConnection (store initFailedWorld) = None
  /\ wallet (store initFailedWorld) = WalletConnection.signedOut
  /\ disconnectWallet (store initFailedWorld) = ([], store initFailedWorld, []).
Proof.
  destruct (near_init_failure_is_final true initFailedWorld
              reachable_initFailedWorld eq_refl eq_refl) as (H1 & _ & H3 & _).
  split; [reflexivity|]. split; [exact H1 | exact H3].
Defined.

(** No handler signs the wallet in. *)
Lemma handler_never_signs_in (a : Action) (s : State) :
  WalletConnection.isSignedIn (wallet s) = false ->
  WalletConnection.isSignedIn (wallet (storeOf (handler a s))) = false.
Proof. intros H. destruct a; run; crunch; auto. Qed.

(** No continuation but the one of [connect(config)] touches the wallet. *)
Lemma resume_keeps_wallet (p : Pending) (reply : Reply p) (s : State) :
  isNearInitPending p = false ->
  wallet (storeOf (resume p reply s)) = wallet s.
Proof.
  intros Hp. destruct p; try discriminate; simpl in reply.
  - destruct reply; reflexivity.
  - destruct reply; reflexivity.
  - destruct reply as [[data|error] now]; run; crunch; reflexivity.
  - destruct reply; reflexivity.
Qed.

(** X5. In any turn of a session a stored wallet connection is kept, and
    the wallet goes from signed out to signed in only in the turn in which
    [connect(config)] settles: no click, [connectWallet] included, and no
    other continuation signs the wallet in. *)
Theorem sign_in_only_at_initialization (ui : bool) (w w' : World) (l : Log)
    (Hstep : step ui w l w') :
  (nearConnection (store w) <> None -> nearConnection (store w') <> None)
  /\ (WalletConnection.isSignedIn (wallet (store w)) = false ->
      WalletConnection.isSignedIn (wallet (store w')) = true ->
      In PendNearInit (pending w)
      /\ nearInitsInFlight (pending w') < nearInitsInFlight (pending w)
      /\ nearConnection (store w') <> None).
Proof.
  inversion Hstep as [a w0 r0 | p reply w0 before after Hp r0]; subst;
    subst r0; simpl.
  - assert (Hh : nearConnection (storeOf (handler a (store w)))
                 = nearConnection (store w)
                 /\ (WalletConnection.isSignedIn (wallet (store w)) = false ->
                     WalletConnection.isSignedIn
                       (wallet (storeOf (handler a (store w)))) = false)).
    { split; [apply handler_frame | apply handler_never_signs_in]. }
    destruct Hh as [En Hs].
    destruct ui.
    + destruct (dispatch_cases a (store w)) as [[_ E]|[_ E]]; rewrite E.
      * split; [auto|]. unfold storeOf. simpl. congruence.
      * rewrite En. split; [auto|]. intros H1 H2.
        rewrite (Hs H1) in H2. discriminate.
    + rewrite En. split; [auto|]. intros H1 H2.
      rewrite (Hs H1) in H2. discriminate.
  - split; [apply resume_frame|]. intros H1 H2.
    destruct (isNearInitPending p) eqn:Ep.
    + destruct p; try discriminate. simpl in reply.
      split; [rewrite Hp; apply in_or_app; right; left; reflexivity|].
      split.
      * unfold nearInitsInFlight.
        rewrite Hp, !countPending_app, countPending_cons. simpl.
        destruct (resume_starts_no_mount_request PendNearInit reply (store w))
          as [_ Ez].
        unfold nearInitsInFlight in Ez. simpl in Ez. rewrite Ez. lia.
      * destruct reply as [session|error]; run; crunch; try discriminate.
        unfold storeOf in H2. simpl in H2. congruence.
    + rewrite (resume_keeps_wallet p reply (store w) Ep) in H2. congruence.
Qed.

(** [sign_in_only_at_initialization] at the turn from [world1] to
    [world2], in which the session of [alice.testnet] is restored. *)
Lemma sign_in_only_at_initialization_witness :
  In PendNearInit (pending world1)
  /\ nearConnection (store world2) <> None.
Proof.
  destruct (sign_in_only_at_initialization true world1 world2 _
              (step_settle true PendNearInit
                 (Js.Fulfilled (mkWalletSession true "alice.testnet"))
                 world1 [] [] eq_refl)) as [_ H].
  destruct (H eq_refl eq_refl) as (H1 & _ & H3).
  split; [exact H1 | exact H3].
Defined.

(** X6. In a session the download of the artifact is only ever awaited by
    a cycle that was started with a successful compile result, a signed-in
    wallet and a stored connection; so when the download is fulfilled the
    cycle always goes on to [account.deployContract] with the downloaded
    bytes, leaving the store alone: the [TypeError] on a [null] connection
    does not occur. *)
Theorem deploy_closure_connected (ui : bool) (w : World) (cl : State)
    (Hreach : reachable ui w)
    (Hpending : In (PendWasm cl) (pending w)) :
  compileSucceeded cl = true
  /\ WalletConnection.isSignedIn (wallet cl) = true
  /\ nearConnection cl <> None
  /\ forall (data : list Byte.byte) (now : N) (st : State),
      deployContract_fetched cl (Js.Fulfilled data) now st
      = ([PendDeploy (deploymentId (contractName cl) now
                        (WalletConnection.accountId (wallet cl)))],
         st, [(DeployContract data, st)]).
Proof.
  destruct (reachable_closureInv ui w Hreach cl Hpending) as [Hr Hn].
  unfold deployReady in Hr. apply andb_true_iff in Hr. destruct Hr as [H1 H2].
  repeat split; auto.
  unfold deployContract_fetched.
  destruct (nearConnection cl); [reflexivity | congruence].
Qed.

(** [deploy_closure_connected] in [world5], where a deploy waits for its
    artifact. *)
Lemma deploy_closure_connected_witness :
  In (PendWasm (store world4)) (pending world5)
  /\ nearConnection (store world4) <> None.
Proof.
  assert (Hp : pending world5 = [PendWasm (store world4)])
    by (vm_compute; reflexivity).
  assert (H : In (PendWasm (store world4)) (pending world5))
    by (rewrite Hp; left; reflexivity).
  split; [exact H|].
  destruct (deploy_closure_connected true world5 (store world4)
              reachable_world5 H) as (_ & _ & H3 & _).
  exact H3.
Defined.

(* ================================================================== *)
(** ** Flags, results and buttons *)
(* ================================================================== *)

(** X7. However the handlers are invoked, a raised flag goes with a cleared
    result: while [compiling] is true [compileResult] is [null] and the
    output panel shows its placeholder, and while [deploying] is true
    [deployResult] is [null] and no deployment status is shown. *)
Theorem raised_flag_cleared_result (ui : bool) (w : World)
    (Hreach : reachable ui w) :
  (compiling (store w) = true ->
   compileResult (store w) = None /\ compileOutput (store w) = None)
  /\ (deploying (store w) = true ->
      deployResult (store w) = None /\ deployStatus (store w) = None).
Proof.
  destruct (reachable_flagsInv ui w Hreach) as [Hc Hd].
  split; intros H.
  - unfold compileOutput. rewrite (Hc H). auto.
  - unfold deployStatus. rewrite (Hd H). auto.
Qed.

(** [raised_flag_cleared_result] in [world5], where a deploy is in
    flight. *)
Lemma raised_flag_cleared_result_witness :
  deploying (store world5) = true
  /\ deployResult (store world5) = None
  /\ deployStatus (store world5) = None.
Proof.
  destruct (raised_flag_cleared_result true world5 reachable_world5)
    as [_ H].
  destruct (H eq_refl) as [H1 H2].
  split; [reflexivity|]. split; [exact H1 | exact H2].
Defined.

(** X8. In a session driven through the page [deploying] is true exactly
    while one deploy cycle is in flight, at either of its two [await]s;
    there is never more than one; and while [deploying] is true the Deploy
    button is disabled or not rendered, so that a click on it runs nothing. *)
Theorem deploy_button_guard (w : World) (Hreach : reachable true w) :
  deploysInFlight (pending w) = (if deploying (store w) then 1 else 0)
  /\ deploysInFlight (pending w) <= 1
  /\ (deploying (store w) = true ->
      enabled ClickDeploy (store w) = false
      /\ dispatch ClickDeploy (store w) = ([], store w, [])).
Proof.
  pose proof (reachable_deployInv w Hreach) as Hc. unfold deployInv in Hc.
  split; [exact Hc|]. split.
  - rewrite Hc. destruct (deploying (store w)); lia.
  - intros Hd.
    assert (En : enabled ClickDeploy (store w) = false).
    { unfold enabled. rewrite Hd. simpl.
      rewrite andb_false_r. apply andb_false_r. }
    split; [exact En|].
    destruct (dispatch_cases ClickDeploy (store w)) as [[_ E]|[En' _]];
      [exact E | congruence].
Qed.

(** [deploy_button_guard] in [world5]. *)
Lemma deploy_button_guard_witness :
  deploysInFlight (pending world5) = 1
  /\ dispatch ClickDeploy (store world5) = ([], store world5, []).
Proof.
  destruct (deploy_button_guard world5 reachable_world5) as (H1 & _ & H3).
  split; [exact H1|]. destruct (H3 eq_refl) as [_ H4]. exact H4.
Defined.

(** X9. In a session driven through the page, while a compile is in flight
    the Download and Deploy buttons are not rendered: a deploy cannot be
    started and the artifact cannot be opened until the compile has
    settled. *)
Theorem no_deploy_while_compiling (w : World) (Hreach : reachable true w)
    (Hcompiling : compiling (store w) = true) :
  enabled ClickDeploy (store w) = false
  /\ enabled ClickDownload (store w) = false
  /\ dispatch ClickDeploy (store w) = ([], store w, [])
  /\ dispatch ClickDownload (store w) = ([], store w, []).
Proof.
  destruct (reachable_compileInv w Hreach) as [_ Hr].
  assert (Hs : compileSucceeded (store w) = false).
  { unfold compileSucceeded. rewrite (Hr Hcompiling). reflexivity. }
  assert (E1 : enabled ClickDeploy (store w) = false).
  { unfold enabled. rewrite Hs. apply andb_false_r. }
  assert (E2 : enabled ClickDownload (store w) = false).
  { unfold enabled. rewrite Hs. apply andb_false_r. }
  repeat split; auto.
  - destruct (dispatch_cases ClickDeploy (store w)) as [[_ E]|[En _]];
      [exact E | congruence].
  - destruct (dispatch_cases ClickDownload (store w)) as [[_ E]|[En _]];
      [exact E | congruence].
Qed.

(** [no_deploy_while_compiling] in [world3]. *)
Lemma no_deploy_while_compiling_witness :
  compiling (store world3) = true
  /\ dispatch ClickDeploy (store world3) = ([], store world3, []).
Proof.
  split; [reflexivity|].
  destruct (no_deploy_while_compiling world3 reachable_world3 eq_refl)
    as (_ & _ & H & _).
  exact H.
Defined.

(* ================================================================== *)
(** ** The artifact endpoint *)
(* ================================================================== *)

(** The address [`${API_BASE_URL}/download-wasm/${contractName}`]. *)
Lemma downloadWasm_run (s : State) :
  downloadWasm s
  = ([], s,
     if compileSucceeded s
     then [(WindowOpen (API_BASE_URL ++ "/download-wasm/" ++ contractName s), s)]
     else []).
Proof. run. destruct (compileSucceeded s); reflexivity. Qed.

(** X10. [downloadWasm] never changes the store and starts no [await]; it
    opens a window only when the last compile succeeded, and then on the
    very address from which [deployContract], invoked on the same store,
    fetches the artifact. *)
Theorem download_uses_deploy_endpoint (s : State) :
  storeOf (downloadWasm s) = s
  /\ resultOf (downloadWasm s) = []
  /\ (compileSucceeded s = false -> logOf (downloadWasm s) = [])
  /\ (compileSucceeded s = true ->
      exists url,
        effects (logOf (downloadWasm s)) = [WindowOpen url]
        /\ (WalletConnection.isSignedIn (wallet s) = true ->
            effects (logOf (deployContract s)) = [AxiosGetArrayBuffer url])).
Proof.
  rewrite downloadWasm_run. repeat split.
  - intros H. rewrite H. reflexivity.
  - intros H. rewrite H. eexists. split; [reflexivity|].
    intros Hs.
    assert (Hr : deployReady s = true).
    { unfold deployReady. rewrite H, Hs. reflexivity. }
    rewrite (deployContract_ready s Hr). reflexivity.
Qed.

(** [download_uses_deploy_endpoint] on the store of [world4]. *)
Lemma download_uses_deploy_endpoint_witness :
  exists url,
    effects (logOf (downloadWasm (store world4))) = [WindowOpen url]
    /\ effects (logOf (deployContract (store world4)))
       = [AxiosGetArrayBuffer url].
Proof.
  destruct (download_uses_deploy_endpoint (store world4)) as (_ & _ & _ & H).
  destruct (H eq_refl) as (url & H1 & H2).
  exists url. split; [exact H1 | exact (H2 eq_refl)].
Defined.

(** X11. Typing in the editor or in the name field clears nothing: both
    results and both flags stay, so a successful compile result stays on
    the page, and a deploy started after the name was changed to [v]
    fetches the artifact of [v], not that of the name that was compiled. *)
Theorem edits_keep_results (s : State) (value : option string) (v : string) :
  (let s' := storeOf (handler (EditorChange value) s) in
   compileResult s' = compileResult s
   /\ deployResult s' = deployResult s
   /\ contractName s' = contractName s)
  /\ (let s' := storeOf (handler (NameInput v) s) in
      compileResult s' = compileResult s
      /\ deployResult s' = deployResult s
      /\ code s' = code s
      /\ contractName s' = v
      /\ (compileSucceeded s = true ->
          WalletConnection.isSignedIn (wallet s) = true ->
          effects (logOf (deployContract s'))
          = [AxiosGetArrayBuffer (API_BASE_URL ++ "/download-wasm/" ++ v)])).
Proof.
  split; cbv zeta.
  - repeat split.
  - repeat split. intros H1 H2.
    assert (Hr : deployReady (storeOf (handler (NameInput v) s)) = true).
    { unfold deployReady, compileSucceeded in *. cbn. rewrite H2.
      destruct (compileResult s); [rewrite H1; reflexivity | discriminate]. }
    rewrite (deployContract_ready _ Hr). reflexivity.
Qed.

(** [edits_keep_results] on the store of [world4], the name changed to
    [other]. *)
Lemma edits_keep_results_witness :
  compileResult (storeOf (handler (NameInput "other") (store world4)))
  = compileResult (store world4)
  /\ effects (logOf (deployContract
                       (storeOf (handler (NameInput "other") (store world4)))))
     = [AxiosGetArrayBuffer "http://localhost:8080/download-wasm/other"].
Proof.
  destruct (edits_keep_results (store world4) None "other")
    as (_ & H1 & _ & _ & _ & H5).
  split; [exact H1 | exact (H5 eq_refl eq_refl)].
Defined.

(* ================================================================== *)
(** ** The contract name of a template *)
(* ================================================================== *)

Lemma lowerChar_whitespace (c : ascii) :
  Js.isWhiteSpace (Js.lowerChar c) = Js.isWhiteSpace c.
Proof. destruct c as [[] [] [] [] [] [] [] []]; reflexivity. Qed.

Lemma lowerChar_idempotent (c : ascii) :
  Js.lowerChar (Js.lowerChar c) = Js.lowerChar c.
Proof. destruct c as [[] [] [] [] [] [] [] []]; reflexivity. Qed.

Lemma toLowerCase_idempotent (s : string) :
  Js.toLowerCase (Js.toLowerCase s) = Js.toLowerCase s.
Proof.
  induction s as [|c r IH]; simpl; [reflexivity|].
  rewrite lowerChar_idempotent, IH. reflexivity.
Qed.

Lemma toLowerCase_replaceRuns (b : bool) (s : string) :
  Js.toLowerCase (Js.replaceRuns b s) = Js.replaceRuns b (Js.toLowerCase s).
Proof.
  revert b. induction s as [|c r IH]; intros b; simpl; [reflexivity|].
  rewrite lowerChar_whitespace.
  destruct (Js.isWhiteSpace c); [destruct b|]; simpl; rewrite IH; reflexivity.
Qed.

Lemma replaceRuns_length (b : bool) (s : string) :
  String.length (Js.replaceRuns b s) <= String.length s.
Proof.
  revert b. induction s as [|c r IH]; intros b; simpl; [lia|].
  destruct (Js.isWhiteSpace c); [destruct b|]; simpl;
    try (specialize (IH true); lia); specialize (IH false); lia.
Qed.

Lemma trim_no_whitespace (s : string) :
  Js.allChars (fun c => negb (Js.isWhiteSpace c)) s = true ->
  Js.trim s = s.
Proof.
  intros H. unfold Js.trim.
  assert (Hs : Js.trimStart s = s).
  { destruct s as [|c r]; simpl in *; [reflexivity|].
    apply andb_true_iff in H. destruct H as [Hc _].
    apply negb_true_iff in Hc. rewrite Hc. reflexivity. }
  rewrite Hs. clear Hs.
  induction s as [|c r IH]; simpl in *; [reflexivity|].
  apply andb_true_iff in H. destruct H as [Hc Hr].
  apply negb_true_iff in Hc. rewrite (IH Hr), Hc.
  destruct r; reflexivity.
Qed.

(** The derived contract name is a fixed point of the derivation, of
    [toLowerCase] and of [trim], holds no white space, and is empty only
    for the empty template name. *)
Lemma derived_name_facts (n : string) :
  let m := Js.replaceWhitespaceRuns (Js.toLowerCase n) in
  Js.replaceWhitespaceRuns (Js.toLowerCase m) = m
  /\ Js.toLowerCase m = m
  /\ Js.allChars (fun c => negb (Js.isWhiteSpace c)) m = true
  /\ Js.trim m = m
  /\ (m = EmptyString <-> n = EmptyString).
Proof.
  cbv zeta. unfold Js.replaceWhitespaceRuns.
  pose proof (replaceRuns_no_whitespace false (Js.toLowerCase n)) as Hws.
  assert (Hlow : Js.toLowerCase (Js.replaceRuns false (Js.toLowerCase n))
                 = Js.replaceRuns false (Js.toLowerCase n)).
  { rewrite toLowerCase_replaceRuns, toLowerCase_idempotent. reflexivity. }
  split; [rewrite Hlow; exact (replaceRuns_id _ Hws)|].
  split; [exact Hlow|]. split; [exact Hws|].
  split; [exact (trim_no_whitespace _ Hws)|].
  destruct n as [|c r]; simpl; [tauto|].
  destruct (Js.isWhiteSpace (Js.lowerChar c)); split; discriminate.
Qed.

(** X12. The contract name [loadTemplate] derives from a template name is
    in normal form: deriving again from it changes nothing, it has no
    upper-case letter and no white space, the replacement of the runs of
    white space does not lengthen the lower-cased name, and the result is
    empty only for the empty template name. *)
Theorem template_contract_name_normal (n : string) :
  let m := Js.replaceWhitespaceRuns (Js.toLowerCase n) in
  Js.replaceWhitespaceRuns (Js.toLowerCase m) = m
  /\ Js.toLowerCase m = m
  /\ Js.allChars (fun c => negb (Js.isWhiteSpace c)) m = true
  /\ Js.trim m = m
  /\ String.length m <= String.length (Js.toLowerCase n)
  /\ (m = EmptyString <-> n = EmptyString).
Proof.
  destruct (derived_name_facts n) as (H1 & H2 & H3 & H4 & H5).
  cbv zeta in *. repeat (split; [assumption|]).
  split; [|exact H5].
  exact (replaceRuns_length false (Js.toLowerCase n)).
Qed.

(** [template_contract_name_normal] for a name that is not empty. *)
Lemma template_contract_name_normal_witness :
  Js.replaceWhitespaceRuns (Js.toLowerCase "Fungible  Token") = "fungible_token"
  /\ Js.replaceWhitespaceRuns (Js.toLowerCase "fungible_token") = "fungible_token"
  /\ "fungible_token" <> EmptyString.
Proof.
  destruct (template_contract_name_normal "Fungible  Token")
    as (H1 & _ & _ & _ & _ & H6).
  split; [reflexivity|]. split; [exact H1|].
  intros E. apply H6 in E. discriminate.
Defined.

(** X13. A template that has a name and a source that is not blank can be
    compiled as loaded: after [loadTemplate], [compileContract] passes its
    check and posts the template's source under the derived contract
    name. *)
Theorem loaded_template_compiles (s : State) (t : ContractTemplate.t)
    (Hin : In t (templates s))
    (Hunique : NoDup (map ContractTemplate.name (templates s)))
    (Hname : ContractTemplate.name t <> EmptyString)
    (Hcode : Js.trim (ContractTemplate.code t) <> EmptyString) :
  let s' := storeOf (loadTemplate (ContractTemplate.name t) s) in
  resultOf (compileContract s') = [PendCompile]
  /\ effects (logOf (compileContract s'))
     = [AxiosPost (API_BASE_URL ++ "/compile") (ContractTemplate.code t)
          (Js.replaceWhitespaceRuns (Js.toLowerCase (ContractTemplate.name t)))].
Proof.
  destruct (loadTemplate_known s t Hin Hunique) as (Ec & En & _).
  cbv zeta in *.
  destruct (derived_name_facts (ContractTemplate.name t))
    as (_ & _ & _ & Ht & He).
  cbv zeta in *.
  assert (Hok : compileInputsOk
                  (storeOf (loadTemplate (ContractTemplate.name t) s)) = true).
  { apply compileInputsOk_spec. rewrite Ec, En, Ht. split; [exact Hcode|].
    intros E. apply He in E. contradiction. }
  rewrite (compileContract_ok _ Hok). unfold resultOf, logOf, effects. simpl.
  rewrite Ec, En. auto.
Qed.

(** [loaded_template_compiles] with the first template of [world4]. *)
Lemma loaded_template_compiles_witness :
  effects (logOf (compileContract
                    (storeOf (loadTemplate "Hello World" (store world4)))))
  = [AxiosPost "http://localhost:8080/compile" "// hello" "hello_world"].
Proof.
  assert (Hin : In (ContractTemplate.mk "Hello World" "A greeting contract"
                      "// hello") (templates (store world4)))
    by (left; reflexivity).
  assert (Hu : NoDup (map ContractTemplate.name (templates (store world4)))).
  { repeat constructor; simpl; intuition discriminate. }
  assert (Hn : ContractTemplate.name
                 (ContractTemplate.mk "Hello World" "A greeting contract"
                    "// hello") <> EmptyString) by discriminate.
  assert (Hc : Js.trim (ContractTemplate.code
                          (ContractTemplate.mk "Hello World"
                             "A greeting contract" "// hello")) <> EmptyString)
    by discriminate.
  destruct (loaded_template_compiles (store world4) _ Hin Hu Hn Hc) as [_ H].
  exact H.
Defined.


(** X15. [compileContract] posts a request exactly when [code] and
    [contractName] both hold a character that is not white space; what it
    posts is the two values as they are, untrimmed.  Otherwise it raises
    the [alert] and nothing else. *)
Theorem compile_request_iff (s : State) :
  (effects (logOf (compileContract s))
   = [AxiosPost (API_BASE_URL ++ "/compile") (code s) (contractName s)]
   <-> Js.allChars Js.isWhiteSpace (code s) = false
       /\ Js.allChars Js.isWhiteSpace (contractName s) = false)
  /\ (effects (logOf (compileContract s))
      = [Alert "Please provide both contract name and code"]
      <-> Js.allChars Js.isWhiteSpace (code s) = true
          \/ Js.allChars Js.isWhiteSpace (contractName s) = true).
Proof.
  assert (Hb : forall x, Js.trim x <> EmptyString
                         <-> Js.allChars Js.isWhiteSpace x = false).
  { intros x. rewrite trim_blank.
    destruct (Js.allChars Js.isWhiteSpace x); split; congruence. }
  destruct (compileInputsOk s) eqn:E.
  - rewrite (compileContract_ok s E).
    apply compileInputsOk_spec in E. destruct E as [E1 E2].
    apply Hb in E1, E2. unfold logOf, effects. simpl. split; split; auto.
    + discriminate.
    + intros [H|H]; congruence.
  - rewrite (compileContract_blank s E). unfold logOf, effects. simpl.
    assert (Hn : Js.allChars Js.isWhiteSpace (code s) = true
                 \/ Js.allChars Js.isWhiteSpace (contractName s) = true).
    { destruct (Js.allChars Js.isWhiteSpace (code s)) eqn:A1; [auto|].
      destruct (Js.allChars Js.isWhiteSpace (contractName s)) eqn:A2; [auto|].
      apply Hb in A1, A2.
      assert (compileInputsOk s = true) by (apply compileInputsOk_spec; auto).
      congruence. }
    split; split; auto.
    + discriminate.
    + intros [H1 H2]. destruct Hn; congruence.
Qed.

(** [compile_request_iff] on [blankNameState] and on the store of
    [world4]. *)
Lemma compile_request_iff_witness :
  effects (logOf (compileContract blankNameState))
  = [Alert "Please provide both contract name and code"]
  /\ effects (logOf (compileContract (store world4)))
     = [AxiosPost (API_BASE_URL ++ "/compile") (code (store world4))
          (contractName (store world4))].
Proof.
  split.
  - apply (proj2 (compile_request_iff blankNameState)). right. reflexivity.
  - apply (proj1 (compile_request_iff (store world4))).
    split; vm_compute; reflexivity.
Defined.

(* ================================================================== *)
(** ** What the page shows *)
(* ================================================================== *)

Lemma whenTruthy_nonempty (m : string) :
  m <> EmptyString -> whenTruthy (Some m) = Some m.
Proof. destruct m; [congruence | reflexivity]. Qed.




(** X17. The text of [compileResult.errors] is shown in one place at most:
    under [Errors:] for a failed compile, under [Warnings & Info:] for a
    successful one, never under both.  A compile request that failed at
    network level shows [Compilation Failed], its [Network error: ...] text
    under [Errors:] and no build output. *)
Theorem compile_errors_shown_once :
  (forall (s : State) (v : CompileOutput),
      compileOutput s = Some v ->
      errorsText v = None \/ warningsText v = None)
  /\ (forall (s : State) (r : CompileResponse.t) (e : string),
         compileResult s = Some r ->
         CompileResponse.errors r = Some e ->
         e <> EmptyString ->
         exists v,
           compileOutput s = Some v
           /\ errorsText v = (if CompileResponse.success r then None else Some e)
           /\ warningsText v
              = (if CompileResponse.success r then Some e else None))
  /\ (forall (st : State) (error : Js.Error),
         compileOutput (storeOf (compileContract_settled (Js.Rejected error) st))
         = Some (mkCompileOutput "Compilation Failed" None
                   (Some ("Network error: " ++ Js.errorToString error)) None)).
Proof.
  split; [|split].
  - intros s v. unfold compileOutput.
    destruct (compileResult s) as [r|]; [|discriminate].
    intros H. injection H as <-. simpl.
    destruct (CompileResponse.success r); auto.
  - intros s r e Hr He Hne. unfold compileOutput. rewrite Hr, He.
    eexists. split; [reflexivity|]. cbn [errorsText warningsText].
    rewrite (whenTruthy_nonempty e Hne).
    destruct (CompileResponse.success r); auto.
  - intros st error. reflexivity.
Qed.

(** [compile_errors_shown_once] on the store of [world2] after a compile
    that failed at network level. *)
Lemma compile_errors_shown_once_witness :
  exists v,
    compileOutput (storeOf (compileCycle (Js.Rejected networkError)
                              (store world2))) = Some v
    /\ errorsText v = Some "Network error: AxiosError: Network Error"
    /\ warningsText v = None.
Proof.
  destruct compile_errors_shown_once as (_ & H & _).
  destruct (H (storeOf (compileCycle (Js.Rejected networkError) (store world2)))
              (CompileResponse.mk false EmptyString
                 (Some "Network error: AxiosError: Network Error") None)
              "Network error: AxiosError: Network Error")
    as (v & H1 & H2 & H3);
    [vm_compute; reflexivity | reflexivity | discriminate |].
  exists v. split; [exact H1|]. split; [exact H2 | exact H3].
Defined.

(** X18. After a template selection the description block follows the
    selection: for a template of the catalogue (names unique, name not
    empty) it shows the name with that template's description; for a name
    that is not empty and not in the catalogue it shows the name without a
    description; for the empty selection it is not rendered. *)
Theorem template_description_shown (s : State) :
  (forall t : ContractTemplate.t,
      In t (templates s) ->
      NoDup (map ContractTemplate.name (templates s)) ->
      ContractTemplate.name t <> EmptyString ->
      templateDescription (storeOf (loadTemplate (ContractTemplate.name t) s))
      = Some (ContractTemplate.name t, Some (ContractTemplate.description t)))
  /\ (forall n : string,
         n <> EmptyString ->
         (forall t, In t (templates s) -> ContractTemplate.name t <> n) ->
         templateDescription (storeOf (loadTemplate n s)) = Some (n, None))
  /\ templateDescription (storeOf (loadTemplate EmptyString s)) = None.
Proof.
  split; [|split].
  - intros t Hin Hu Hn.
    pose proof (find_unique_name (templates s) t Hu Hin) as Hf.
    rewrite (loadTemplate_found _ t s Hf).
    unfold templateDescription, storeOf. cbn.
    destruct (ContractTemplate.name t) as [|c r] eqn:En; [congruence|].
    rewrite Hf. reflexivity.
  - intros n Hn Hno.
    pose proof (find_no_name (templates s) n Hno) as Hf.
    rewrite (loadTemplate_missing n s Hf).
    unfold templateDescription, storeOf. cbn.
    destruct n as [|c r]; [congruence|]. rewrite Hf. reflexivity.
  - destruct (find (fun t => ContractTemplate.name t =? EmptyString)
                (templates s)) as [t|] eqn:Hf.
    + rewrite (loadTemplate_found _ t s Hf). reflexivity.
    + rewrite (loadTemplate_missing _ s Hf). reflexivity.
Qed.

(** [template_description_shown] in [world4]: the second template, and a
    name the catalogue does not have. *)
Lemma template_description_shown_witness :
  templateDescription (storeOf (loadTemplate "Fungible  Token" (store world4)))
  = Some ("Fungible  Token", Some "A token contract")
  /\ templateDescription (storeOf (loadTemplate "Missing" (store world4)))
     = Some ("Missing", None).
Proof.
  destruct (template_description_shown (store world4)) as (H1 & H2 & _).
  split.
  - apply (H1 (ContractTemplate.mk "Fungible  Token" "A token contract"
                 "// token")).
    + right. left. reflexivity.
    + repeat constructor; simpl; intuition discriminate.
    + discriminate.
  - apply (H2 "Missing"); [discriminate|].
    intros t [<-|[<-|[]]]; discriminate.
Defined.
